(** * Turnstile-gated Telegram notification worker: a shallow embedding

    The worker is a linear pipeline: API-key gate, Turnstile verification,
    message formatting, Telegram send, JSON envelope with CORS headers.
    Each TypeScript function is transcribed as a Rocq function of the same
    name; the two outbound [fetch] calls are nodes of a small free monad
    ([Async]), so that "no outbound call" is a statement about a value. *)

From Stdlib Require Import ZArith Strings.String Strings.Ascii List Lia.
From Stdlib Require Import Numbers.DecimalString Numbers.DecimalPos.
From stdpp Require Import gmap strings list fin_maps.

Open Scope string_scope.

(* ===================================================================== *)
(** ** JavaScript strings

    A JS string is a sequence of UTF-16 code units.  The model keeps one
    [ascii] per code unit, that is, the code units below 256: all that an
    HTTP header value can carry, and all that the literals of the source
    need.  Text with code units above 255 is outside the model. *)
(* ===================================================================== *)

Module JsString.

(** [s.charCodeAt(i)]; outside the string JS answers NaN, which the bit
    operators read as 0. *)
Definition charCodeAt (s : string) (i : nat) : Z :=
  match String.get i s with
  | Some c => Z.of_nat (nat_of_ascii c)
  | None => 0%Z
  end.

(** ToInt32, applied by [|] and [^] to their operands and result. *)
Definition toInt32 (z : Z) : Z := ((z + 2 ^ 31) mod 2 ^ 32 - 2 ^ 31)%Z.

(** White space and line terminators removed by [String.prototype.trim]
    (the ones below 256: TAB, LF, VT, FF, CR, SP, NBSP). *)
Definition isWhiteSpace (c : ascii) : bool :=
  let n := nat_of_ascii c in
  ((9 <=? n)%nat && (n <=? 13)%nat) || (n =? 32)%nat || (n =? 160)%nat.

Fixpoint trimStart (s : string) : string :=
  match s with
  | String c s' => if isWhiteSpace c then trimStart s' else s
  | EmptyString => EmptyString
  end.

(** [trimEnd]: a character is kept when it is not white space or when
    something is kept after it. *)
Fixpoint trimEnd (s : string) : string :=
  match s with
  | EmptyString => EmptyString
  | String c s' =>
      match trimEnd s' with
      | EmptyString => if isWhiteSpace c then EmptyString else String c EmptyString
      | r => String c r
      end
  end.

Definition trim (s : string) : string := trimEnd (trimStart s).

(** What follows [pat] when [s] starts with it. *)
Fixpoint stripPrefix (pat s : string) : option string :=
  match pat with
  | EmptyString => Some s
  | String c pat' =>
      match s with
      | String d s' => if Ascii.eqb c d then stripPrefix pat' s' else None
      | EmptyString => None
      end
  end.

(** [s.replace(pat, rep)] with a string pattern: the first occurrence
    only ([rep] has no [$] pattern in the source). *)
Fixpoint replace (pat rep s : string) : string :=
  match stripPrefix pat s with
  | Some rest => rep +:+ rest
  | None =>
      match s with
      | EmptyString => EmptyString
      | String c s' => String c (replace pat rep s')
      end
  end.

(** [pat] occurs in [s]. *)
Definition occursIn (pat s : string) : Prop :=
  exists pre post, s = pre +:+ pat +:+ post.

(** [s] is [pre], then [pat], then [post], and [pat] occurs nowhere
    earlier in [s]. *)
Definition firstOccurrence (pat pre post s : string) : Prop :=
  s = pre +:+ pat +:+ post /\
  forall pre' post', s = pre' +:+ pat +:+ post' -> String.length pre <= String.length pre'.

(** [s.replace(/c/g, rep)] for a one-character pattern. *)
Fixpoint replaceAll (c : ascii) (rep s : string) : string :=
  match s with
  | EmptyString => EmptyString
  | String d s' =>
      (if Ascii.eqb c d then rep else String d EmptyString) +:+ replaceAll c rep s'
  end.

(** [s.split(sep)] for a one-character separator: never an empty array. *)
Fixpoint split (sep : ascii) (s : string) : list string :=
  match s with
  | EmptyString => [EmptyString]
  | String c s' =>
      if Ascii.eqb sep c then EmptyString :: split sep s'
      else match split sep s' with
           | x :: xs => String c x :: xs
           | [] => [String c EmptyString]
           end
  end.

(** [s.includes(c)] for one character. *)
Fixpoint hasChar (c : ascii) (s : string) : bool :=
  match s with
  | EmptyString => false
  | String d s' => Ascii.eqb c d || hasChar c s'
  end.

(** [arr.includes(x)] on an array of strings. *)
Definition includes (l : list string) (x : string) : bool :=
  existsb (String.eqb x) l.

(** [arr.join(sep)] on an array of strings. *)
Definition join (sep : string) (l : list string) : string := String.concat sep l.

(** Truthiness of a string: non-empty. *)
Definition nonEmpty (s : string) : bool := negb (String.eqb s "").

End JsString.

(* ===================================================================== *)
(** ** JavaScript values, as [JSON.parse] produces them *)
(* ===================================================================== *)

Module Js.
Import JsString.

(** Numbers are the integers that print in plain decimal notation. The
    fields of [JObj] are the own properties in the order [Object.entries]
    lists them. *)
#[warnings="-register-all"] Inductive JsValue : Type :=
| JUndefined
| JNull
| JBool (b : bool)
| JNum (n : Z)
| JStr (s : string)
| JArr (items : list JsValue)
| JObj (fields : list (string * JsValue)).

(** What a [throw] carries: an [Error] object with its message, or
    something that is not an [Error]. *)
Inductive JsThrown : Type :=
| ErrorObj (name message : string)
| NotAnError.

(** [error instanceof Error ? error.message : fallback] *)
Definition messageOr (e : JsThrown) (fallback : string) : string :=
  match e with
  | ErrorObj _ m => m
  | NotAnError => fallback
  end.

(** ToBoolean *)
Definition truthy (v : JsValue) : bool :=
  match v with
  | JUndefined | JNull => false
  | JBool b => b
  | JNum n => negb (n =? 0)%Z
  | JStr s => nonEmpty s
  | JArr _ | JObj _ => true
  end.

(** ToBoolean of a value that is a string, [null] or [undefined]. *)
Definition truthyStr (o : option string) : bool :=
  match o with
  | Some s => nonEmpty s
  | None => false
  end.

(** [a || b] on such values. *)
Definition orElse (a b : option string) : option string :=
  if truthyStr a then a else b.

(** [a || "literal"] *)
Definition orDefault (a : option string) (d : string) : string :=
  match a with
  | Some s => if nonEmpty s then s else d
  | None => d
  end.

Fixpoint lookupField (name : string) (fields : list (string * JsValue)) : JsValue :=
  match fields with
  | [] => JUndefined
  | (k, v) :: rest => if String.eqb k name then v else lookupField name rest
  end.

(** [v.name] for a name that no primitive wrapper and no array defines:
    reading a property of [null] or [undefined] throws a TypeError. *)
Definition getProp (v : JsValue) (name : string) : JsThrown + JsValue :=
  match v with
  | JUndefined =>
      inl (ErrorObj "TypeError"
             ("Cannot read properties of undefined (reading '" +:+ name +:+ "')"))
  | JNull =>
      inl (ErrorObj "TypeError"
             ("Cannot read properties of null (reading '" +:+ name +:+ "')"))
  | JObj fields => inr (lookupField name fields)
  | _ => inr JUndefined
  end.


(** Number::toString for a safe integer: plain decimal. (Beyond the safe
    range a JS number rounds, and from 1e21 on prints with an exponent;
    properties that depend on the print of a number assume
    [safeInteger].) *)
Definition numberToString (n : Z) : string := NilEmpty.string_of_int (Z.to_int n).

(** [String(v)] *)
Fixpoint toString (v : JsValue) : string :=
  match v with
  | JUndefined => "undefined"
  | JNull => "null"
  | JBool b => if b then "true" else "false"
  | JNum n => numberToString n
  | JStr s => s
  | JArr items =>
      join "," (map (fun x => match x with
                              | JUndefined | JNull => ""
                              | _ => toString x
                              end) items)
  | JObj _ => "[object Object]"
  end.

Definition dquote : ascii := ascii_of_nat 34.

Definition hexDigit (n : nat) : ascii :=
  ascii_of_nat (if (n <? 10)%nat then 48 + n else 87 + n).

(** QuoteJSONString, one code unit at a time. *)
Definition quoteChar (c : ascii) : string :=
  let n := nat_of_ascii c in
  if (n =? 34)%nat then String "\" (String dquote EmptyString)
  else if (n =? 92)%nat then "\\"
  else if (n =? 8)%nat then "\b"
  else if (n =? 9)%nat then "\t"
  else if (n =? 10)%nat then "\n"
  else if (n =? 12)%nat then "\f"
  else if (n =? 13)%nat then "\r"
  else if (n <? 32)%nat then
    "\u00" +:+ String (hexDigit (n / 16)) (String (hexDigit (n mod 16)) EmptyString)
  else String c EmptyString.

Fixpoint quoteChars (s : string) : string :=
  match s with
  | EmptyString => EmptyString
  | String c s' => quoteChar c +:+ quoteChars s'
  end.

Definition quote (s : string) : string :=
  String dquote (quoteChars s) +:+ String dquote EmptyString.

(** [JSON.stringify(v)]; [None] is [undefined]. Inside an array an
    [undefined] prints as null, inside an object its property is left
    out. *)
Fixpoint stringify (v : JsValue) : option string :=
  match v with
  | JUndefined => None
  | JNull => Some "null"
  | JBool b => Some (if b then "true" else "false")
  | JNum n => Some (numberToString n)
  | JStr s => Some (quote s)
  | JArr items =>
      Some ("[" +:+ join "," (map (fun x => match stringify x with
                                            | Some t => t
                                            | None => "null"
                                            end) items) +:+ "]")
  | JObj fields =>
      Some ("{" +:+ join "," (flat_map (fun kv => match stringify (snd kv) with
                                                    | Some t => [quote (fst kv) +:+ ":" +:+ t]
                                                    | None => []
                                                    end) fields) +:+ "}")
  end.


(** [Object.entries(v)] of an object or an array. *)
Definition entries (v : JsValue) : list (string * JsValue) :=
  match v with
  | JObj fields => fields
  | JArr items =>
      map (fun p => (numberToString (Z.of_nat (fst p)), snd p))
          (combine (seq 0 (length items)) items)
  | _ => []
  end.

End Js.

(* ===================================================================== *)
(** ** Requests, responses, headers, environment *)
(* ===================================================================== *)

Module Http.
Import JsString Js.

Definition lowerChar (c : ascii) : ascii :=
  let n := nat_of_ascii c in
  if ((65 <=? n)%nat && (n <=? 90)%nat) then ascii_of_nat (n + 32) else c.

Fixpoint lower (s : string) : string :=
  match s with
  | EmptyString => EmptyString
  | String c s' => String (lowerChar c) (lower s')
  end.

(** A [Headers] object: header names are matched case-insensitively, so
    the map is keyed by the lower-cased name. *)
Abbreviation Headers := (gmap string string).

Definition headers_get (h : Headers) (name : string) : option string :=
  h !! lower name.

(** HTTP white space: TAB, LF, CR, SP. *)
Definition isHttpWhitespace (c : ascii) : bool :=
  let n := nat_of_ascii c in
  (n =? 9)%nat || (n =? 10)%nat || (n =? 13)%nat || (n =? 32)%nat.

Fixpoint stripLeading (v : string) : string :=
  match v with
  | String c v' => if isHttpWhitespace c then stripLeading v' else v
  | EmptyString => EmptyString
  end.

Fixpoint stripTrailing (v : string) : string :=
  match v with
  | EmptyString => EmptyString
  | String c v' =>
      match stripTrailing v' with
      | EmptyString => if isHttpWhitespace c then EmptyString else String c EmptyString
      | r => String c r
      end
  end.

(** A value as a [Headers] object stores it: without the HTTP white
    space at its two ends. *)
Definition normalizeValue (v : string) : string := stripTrailing (stripLeading v).

(** NUL, LF and CR may not stand in a header value. *)
Definition forbiddenInValue (c : ascii) : bool :=
  let n := nat_of_ascii c in
  (n =? 0)%nat || (n =? 10)%nat || (n =? 13)%nat.

Fixpoint noForbidden (v : string) : bool :=
  match v with
  | EmptyString => true
  | String c v' => negb (forbiddenInValue c) && noForbidden v'
  end.

(** Whether [Headers.set], [Headers.append] and [new Headers(init)]
    accept the value: they normalize it, and throw a TypeError when what
    is left still holds a NUL, LF or CR. *)
Definition validValue (v : string) : bool := noForbidden (normalizeValue v).

(** What they throw otherwise (the text is the engine's). *)
Definition invalidHeaderValue : JsThrown := ErrorObj "TypeError" "Invalid header value.".

(** [h.set(name, value)] for a value that is accepted. *)
Definition headers_set (h : Headers) (name value : string) : Headers :=
  <[lower name := normalizeValue value]> h.

(** [h.append(name, value)] for a value that is accepted: a name that is
    there already gets the new value after a comma and a space. *)
Definition headers_append (h : Headers) (name value : string) : Headers :=
  <[lower name := match h !! lower name with
                  | Some old => old +:+ ", " +:+ normalizeValue value
                  | None => normalizeValue value
                  end]> h.

(** [new Headers({...})] from the properties of an object literal whose
    values are accepted: each one is appended. *)
Definition headers_of (init : list (string * string)) : Headers :=
  fold_left (fun h kv => headers_append h (fst kv) (snd kv)) init ∅.

(** The parts of a [Request] the worker reads: [json] is what
    [await request.json()] gives, [None] when it throws. *)
Record Request : Type := {
  method : string;
  pathname : string;
  headers : Headers;
  json : option JsValue
}.

Record Response : Type := {
  status : Z;
  res_headers : Headers;
  body : option string
}.

(** types/env.ts: every binding may be missing at run time. *)
Record Env : Type := {
  TURNSTILE_SECRET_KEY : option string;
  TELEGRAM_BOT_TOKEN : option string;
  TELEGRAM_CHAT_ID : option string;
  API_KEY : option string;
  ALLOWED_ORIGINS : option string
}.

End Http.

(* ===================================================================== *)
(** ** Asynchronous code and its two outbound calls *)
(* ===================================================================== *)

Module Effects.
Import JsString Js Http.

(** Reply of the verification service, at its declared type. *)
Record TurnstileResponse : Type := {
  ts_success : bool;
  ts_error_codes : option (list string)
}.

(** Reply of the Bot API, at its declared type. *)
Record TelegramResponse : Type := {
  tg_ok : bool;
  tg_description : option string;
  tg_result : JsValue
}.

Inductive RequestBody : Type :=
| FormBody (fields : list (string * string))
| TextBody (text : string).

(** The arguments of an outbound [fetch]. *)
Record OutboundRequest : Type := {
  out_url : string;
  out_method : string;
  out_headers : list (string * string);
  out_body : RequestBody
}.

(** What [await fetch(...)] followed by [await response.json()] gives:
    one of the two threw, or there is a response ([response.ok]) with
    parsed data. *)
Inductive Reply (D : Type) : Type :=
| Threw (e : JsThrown)
| Replied (ok : bool) (data : D).
Arguments Threw {D} e.
Arguments Replied {D} ok data.

(** An [async] computation: it resolves, rejects (an uncaught [throw]),
    or awaits one of the two outbound calls and goes on with the reply. *)
Inductive Async (A : Type) : Type :=
| Resolve (a : A)
| Reject (e : JsThrown)
| AwaitTurnstile (rq : OutboundRequest) (k : Reply TurnstileResponse -> Async A)
| AwaitTelegram (rq : OutboundRequest) (k : Reply TelegramResponse -> Async A).
Arguments Resolve {A} a.
Arguments Reject {A} e.
Arguments AwaitTurnstile {A} rq k.
Arguments AwaitTelegram {A} rq k.

Fixpoint bind {A B : Type} (m : Async A) (f : A -> Async B) : Async B :=
  match m with
  | Resolve a => f a
  | Reject e => Reject e
  | AwaitTurnstile rq k => AwaitTurnstile rq (fun r => bind (k r) f)
  | AwaitTelegram rq k => AwaitTelegram rq (fun r => bind (k r) f)
  end.

(** [try { m } catch (e) { h e }] *)
Fixpoint catch {A : Type} (m : Async A) (h : JsThrown -> Async A) : Async A :=
  match m with
  | Resolve a => Resolve a
  | Reject e => h e
  | AwaitTurnstile rq k => AwaitTurnstile rq (fun r => catch (k r) h)
  | AwaitTelegram rq k => AwaitTelegram rq (fun r => catch (k r) h)
  end.

(** A synchronous step that may throw. *)
Definition lift {A : Type} (r : JsThrown + A) : Async A :=
  match r with
  | inl e => Reject e
  | inr a => Resolve a
  end.

#[global] Instance Async_ret : MRet Async := @Resolve.
#[global] Instance Async_bind : MBind Async := fun A B f m => bind m f.

(** The outside world: how the two services answer. *)
Record World : Type := {
  turnstile_service : OutboundRequest -> Reply TurnstileResponse;
  telegram_service : OutboundRequest -> Reply TelegramResponse
}.

(** Running a computation against a world: the outbound calls made, in
    order, and the outcome. *)
Fixpoint run {A : Type} (w : World) (m : Async A) : list OutboundRequest * (JsThrown + A) :=
  match m with
  | Resolve a => ([], inr a)
  | Reject e => ([], inl e)
  | AwaitTurnstile rq k =>
      let '(calls, r) := run w (k (turnstile_service w rq)) in (rq :: calls, r)
  | AwaitTelegram rq k =>
      let '(calls, r) := run w (k (telegram_service w rq)) in (rq :: calls, r)
  end.

Definition calls {A : Type} (w : World) (m : Async A) : list OutboundRequest :=
  fst (run w m).

Definition outcome {A : Type} (w : World) (m : Async A) : JsThrown + A :=
  snd (run w m).

End Effects.

(* ===================================================================== *)
(** ** middleware/auth: the credential comparator *)
(* ===================================================================== *)

Module Auth.
Import JsString Js Http.

(** One turn of the loop [result |= a.charCodeAt(i) ^ b.charCodeAt(i)];
    the second component counts the turns. *)
Definition secureCompare_step (a b : string) (st : Z * nat) (i : nat) : Z * nat :=
  (toInt32 (Z.lor (fst st) (toInt32 (Z.lxor (charCodeAt a i) (charCodeAt b i)))),
   S (snd st)).

(** [secureCompare] with the number of loop turns it took. *)
Definition secureCompare_run (a b : string) : bool * nat :=
  if negb (String.length a =? String.length b)%nat then (false, 0)
  else
    let st := fold_left (secureCompare_step a b) (seq 0 (String.length a)) (0%Z, 0) in
    ((fst st =? 0)%Z, snd st).

Definition secureCompare (a b : string) : bool := fst (secureCompare_run a b).

Record AuthResult : Type := {
  auth_success : bool;
  auth_error : option string
}.

(** [{ success: true }] and [{ success: false, error: msg }] *)
Definition authOk : AuthResult := {| auth_success := true; auth_error := None |}.

Definition authFailed (msg : string) : AuthResult :=
  {| auth_success := false; auth_error := Some msg |}.

(** [request.headers.get("X-API-Key") ||
     request.headers.get("Authorization")?.replace("Bearer ", "")] *)
Definition candidateKey (request : Request) : option string :=
  orElse (headers_get (headers request) "X-API-Key")
         (replace "Bearer " "" <$> headers_get (headers request) "Authorization").

Definition missingKeyError : string :=
  "Missing API key. Provide via X-API-Key header or Authorization: Bearer <key>".

Definition validateApiKey (request : Request) (env : Env) : AuthResult :=
  if negb (truthyStr (API_KEY env)) then authOk
  else
    let apiKey := candidateKey request in
    if negb (truthyStr apiKey) then authFailed missingKeyError
    else if negb (secureCompare (default "" apiKey) (default "" (API_KEY env))) then
      authFailed "Invalid API key"
    else authOk.

End Auth.

(* ===================================================================== *)
(** ** middleware/turnstile: the challenge verifier *)
(* ===================================================================== *)

Module Turnstile.
Import JsString Js Http Effects.

Record TurnstileResult : Type := {
  success : bool;
  error : option string;
  details : option TurnstileResponse
}.

Definition TURNSTILE_VERIFY_URL : string :=
  "https://challenges.cloudflare.com/turnstile/v0/siteverify".

(** The properties of the object literal [ERROR_CODES]. *)
Definition ERROR_CODES_entries : list (string * string) := [
  ("missing-input-secret", "The secret parameter was not passed");
  ("invalid-input-secret", "The secret parameter was invalid or did not exist");
  ("missing-input-response", "The response parameter was not passed");
  ("invalid-input-response", "The response parameter is invalid or has expired");
  ("invalid-widget-id", "The widget ID extracted from the parsed site secret key was invalid");
  ("invalid-parsed-secret", "The secret extracted from the parsed site secret key was invalid");
  ("bad-request", "The request was rejected because it was malformed");
  ("timeout-or-duplicate", "The response parameter has already been validated before");
  ("internal-error", "An internal error happened while validating the response")
].

(** The own properties of [ERROR_CODES], as a map from code to
    description. *)
Definition ERROR_CODES : gmap string string := list_to_map ERROR_CODES_entries.

(** How the engine prints a built-in function of the given name when
    [join] turns it into a string. *)
Definition nativeFunctionText (name : string) : string :=
  "function " +:+ name +:+ "() { [native code] }".

(** [ERROR_CODES] is an object literal, so a name that is not its own is
    looked up in [Object.prototype]: twelve names are found there, eleven
    as built-in functions and [__proto__] as the prototype object itself.
    The result is what [join] prints for the value found. *)
Definition inheritedText (name : string) : option string :=
  if String.eqb name "constructor" then Some (nativeFunctionText "Object")
  else if String.eqb name "__proto__" then Some "[object Object]"
  else if existsb (String.eqb name)
            ["__defineGetter__"; "__defineSetter__"; "hasOwnProperty";
             "__lookupGetter__"; "__lookupSetter__"; "isPrototypeOf";
             "propertyIsEnumerable"; "toString"; "valueOf"; "toLocaleString"]
       then Some (nativeFunctionText name)
  else None.

(** [ERROR_CODES[code] || code], as [join] prints it. *)
Definition describe (code : string) : string :=
  match ERROR_CODES !! code with
  | Some d => if nonEmpty d then d else code
  | None =>
      match inheritedText code with
      | Some text => text
      | None => code
      end
  end.

Definition unknownError : string := "Unknown verification error".

(** [codes] is [None] when the reply has no [error-codes]. *)
Definition getErrorMessage (codes : option (list string)) : string :=
  match codes with
  | None => unknownError
  | Some [] => unknownError
  | Some l => join "; " (map describe l)
  end.

Definition verifyTurnstile (token : JsValue) (env : Env) (remoteIp : option string)
  : Async TurnstileResult :=
  if negb (truthyStr (TURNSTILE_SECRET_KEY env)) then
    Resolve {| success := false;
               error := Some "Turnstile secret key not configured";
               details := None |}
  else if negb (truthy token) then
    Resolve {| success := false;
               error := Some "Missing Turnstile token";
               details := None |}
  else
    let formData :=
      ([("secret", default "" (TURNSTILE_SECRET_KEY env)); ("response", toString token)]
       ++ (if truthyStr remoteIp then [("remoteip", default "" remoteIp)] else []))%list in
    AwaitTurnstile
      {| out_url := TURNSTILE_VERIFY_URL;
         out_method := "POST";
         out_headers := [("Content-Type", "application/x-www-form-urlencoded")];
         out_body := FormBody formData |}
      (fun reply =>
         match reply with
         | Threw e =>
             Resolve {| success := false;
                        error := Some (messageOr e "Failed to verify Turnstile token");
                        details := None |}
         | Replied _ data =>
             if negb (ts_success data) then
               Resolve {| success := false;
                          error := Some (getErrorMessage (ts_error_codes data));
                          details := Some data |}
             else
               Resolve {| success := true; error := None; details := Some data |}
         end).

End Turnstile.

(* ===================================================================== *)
(** ** actions/telegram: the formatter and the sender *)
(* ===================================================================== *)

Module Telegram.
Import JsString Js Http Effects.

(** The fields are whatever the request body held. *)
Record ActionPayload : Type := {
  message : JsValue;
  subject : JsValue;
  metadata : JsValue
}.

Inductive ActionData : Type :=
| NoData
| ProviderReply (r : TelegramResponse)
| ProviderResult (v : JsValue).

Record ActionResult : Type := {
  success : bool;
  result_message : string;
  data : ActionData
}.

Record TelegramAction : Type := {
  botToken : option string;
  chatId : option string;
  apiUrl : string
}.

(** The constructor; a template literal prints [undefined] as such. *)
Definition new_TelegramAction (botToken chatId : option string) : TelegramAction :=
  {| botToken := botToken;
     chatId := chatId;
     apiUrl := "https://api.telegram.org/bot" +:+ default "undefined" botToken |}.

Definition validate (self : TelegramAction) : bool :=
  truthyStr (botToken self) && truthyStr (chatId self).

Definition escapeHtml (text : string) : string :=
  replaceAll ">" "&gt;" (replaceAll "<" "&lt;" (replaceAll "&" "&amp;" text)).

(** The entity of one character: what [escapeHtml] should make of it. *)
Definition escapeChar (c : ascii) : string :=
  if Ascii.eqb c "&" then "&amp;"
  else if Ascii.eqb c "<" then "&lt;"
  else if Ascii.eqb c ">" then "&gt;"
  else String c EmptyString.

(** Escaping in one pass, character by character. *)
Fixpoint escapeChars (text : string) : string :=
  match text with
  | EmptyString => EmptyString
  | String c rest => escapeChar c +:+ escapeChars rest
  end.

(** No angle bracket in the text. *)
Definition markupFree (s : string) : bool :=
  negb (hasChar "<" s) && negb (hasChar ">" s).

(** The three kinds of line the formatter builds: text in bold tags, bare
    text, and a key in bold tags followed by text; the text is free of
    markup in each. *)
Inductive lineShape : string -> Prop :=
| BoldLine (e : string) :
    markupFree e = true -> lineShape ("<b>" +:+ e +:+ "</b>")
| PlainLine (e : string) :
    markupFree e = true -> lineShape e
| KeyValueLine (k v : string) :
    markupFree k = true -> markupFree v = true ->
    lineShape ("<b>" +:+ k +:+ ":</b> " +:+ v).

(** The body of the loop over the metadata entries, up to the test
    [if (str)]: the text of one value. *)
Definition valueText (value : JsValue) : string :=
  match value with
  | JStr s => escapeHtml (trim s)
  | JNum _ | JBool _ => escapeHtml (toString value)
  | JUndefined | JNull => ""
  | JArr _ | JObj _ => escapeHtml (default "undefined" (stringify value))
  end.

(** One turn of the loop: the fragment pushed for an entry, if any. *)
Definition metadataField (entry : string * JsValue) : list string :=
  let str := valueText (snd entry) in
  if nonEmpty str then ["<b>" +:+ escapeHtml (fst entry) +:+ ":</b> " +:+ str] else [].

Definition metadataFields (metadata : JsValue) : list string :=
  match metadata with
  | JArr _ | JObj _ => flat_map metadataField (entries metadata)
  | _ => []
  end.

Definition subjectFields (subject : JsValue) : list string :=
  match subject with
  | JStr s =>
      if nonEmpty s && nonEmpty (trim s)
      then ["<b>" +:+ escapeHtml (trim s) +:+ "</b>"] else []
  | _ => []
  end.

Definition messageFields (message : JsValue) : list string :=
  match message with
  | JStr s => if nonEmpty s && nonEmpty (trim s) then [escapeHtml (trim s)] else []
  | _ => []
  end.

Definition newline : string := String (ascii_of_nat 10) EmptyString.

Definition formatMessage (payload : ActionPayload) : string :=
  join newline (subjectFields (subject payload)
                ++ messageFields (message payload)
                ++ metadataFields (metadata payload))%list.

Definition execute (self : TelegramAction) (payload : ActionPayload) : Async ActionResult :=
  if negb (validate self) then
    Resolve {| success := false;
               result_message := "Telegram action is not properly configured";
               data := NoData |}
  else
    AwaitTelegram
      {| out_url := apiUrl self +:+ "/sendMessage";
         out_method := "POST";
         out_headers := [("Content-Type", "application/json")];
         out_body := TextBody (default "" (stringify (JObj [
           ("chat_id", JStr (default "" (chatId self)));
           ("text", JStr (formatMessage payload));
           ("parse_mode", JStr "HTML");
           ("disable_web_page_preview", JBool true)]))) |}
      (fun reply =>
         match reply with
         | Threw e =>
             Resolve {| success := false;
                        result_message := messageOr e "Unknown error occurred";
                        data := NoData |}
         | Replied ok d =>
             if negb ok || negb (tg_ok d) then
               Resolve {| success := false;
                          result_message :=
                            orDefault (tg_description d) "Failed to send Telegram message";
                          data := ProviderReply d |}
             else
               Resolve {| success := true;
                          result_message := "Notification sent successfully";
                          data := ProviderResult (tg_result d) |}
         end).

End Telegram.

(* ===================================================================== *)
(** ** utils/response: the response builder *)
(* ===================================================================== *)

Module ResponseUtil.
Import JsString Js Http.

(** Writing a property into an object literal: a name that is there
    already keeps its place and takes the new value. *)
Fixpoint assign (props : list (string * string)) (name value : string)
  : list (string * string) :=
  match props with
  | [] => [(name, value)]
  | (n, v) :: rest =>
      if String.eqb n name then (n, value) :: rest else (n, v) :: assign rest name value
  end.

(** [{ ...base, ...extra }] for two plain objects. *)
Definition spread (base extra : list (string * string)) : list (string * string) :=
  fold_left (fun props kv => assign props (fst kv) (snd kv)) extra base.

(** [body] is the envelope object, its properties in the order of the
    literal that built it; [headers] is a plain object of header values
    (the worker never passes one). *)
Definition jsonResponse (body : JsValue) (status : Z) (headers : list (string * string))
  : Response :=
  {| status := status;
     res_headers := headers_of (spread [("Content-Type", "application/json")] headers);
     body := stringify body |}.

Definition successResponse (message : string) (data : JsValue) : Response :=
  jsonResponse
    (JObj [("success", JBool true); ("message", JStr message); ("data", data)]) 200 [].

Definition errorResponse (message : string) (status : Z) : Response :=
  jsonResponse
    (JObj [("success", JBool false); ("message", JStr message); ("error", JStr message)])
    status [].

(** The response that [withCors] returns, when it returns. *)
Definition withCors (response : Response) (origin : string) : Response :=
  let headers := res_headers response in
  let headers := headers_set headers "Access-Control-Allow-Origin" origin in
  let headers := headers_set headers "Access-Control-Allow-Methods" "GET, POST, OPTIONS" in
  let headers :=
    headers_set headers "Access-Control-Allow-Headers" "Content-Type, X-API-Key, Authorization" in
  let headers := headers_set headers "Access-Control-Max-Age" "86400" in
  {| status := status response; res_headers := headers; body := body response |}.

(** The call [withCors(response, origin)]: the first [headers.set] throws
    when the origin is no valid header value; otherwise the response is
    the one [withCors] describes. *)
Definition tryWithCors (response : Response) (origin : string) : JsThrown + Response :=
  if validValue origin then inr (withCors response origin) else inl invalidHeaderValue.

(** The names of the four headers that [withCors] sets. *)
Definition corsHeaderNames : list string :=
  ["Access-Control-Allow-Origin"; "Access-Control-Allow-Methods";
   "Access-Control-Allow-Headers"; "Access-Control-Max-Age"].

(** The four headers of the CORS-attachment step, with their values. *)
Definition hasCors (origin : string) (response : Response) : Prop :=
  headers_get (res_headers response) "Access-Control-Allow-Origin" = Some origin /\
  headers_get (res_headers response) "Access-Control-Allow-Methods"
    = Some "GET, POST, OPTIONS" /\
  headers_get (res_headers response) "Access-Control-Allow-Headers"
    = Some "Content-Type, X-API-Key, Authorization" /\
  headers_get (res_headers response) "Access-Control-Max-Age" = Some "86400".

(** None of the four is there. *)
Definition lacksCors (response : Response) : Prop :=
  headers_get (res_headers response) "Access-Control-Allow-Origin" = None /\
  headers_get (res_headers response) "Access-Control-Allow-Methods" = None /\
  headers_get (res_headers response) "Access-Control-Allow-Headers" = None /\
  headers_get (res_headers response) "Access-Control-Max-Age" = None.

End ResponseUtil.

(* ===================================================================== *)
(** ** index: the router and the entry point *)
(* ===================================================================== *)

Module Worker.
Import JsString Js Http Effects Auth Turnstile Telegram ResponseUtil.

(** [env.ALLOWED_ORIGINS?.split(",").map((o) => o.trim()) || ["*"]];
    an array is truthy, so the default is taken only when the binding is
    missing. *)
Definition allowedOrigins (env : Env) : list string :=
  match ALLOWED_ORIGINS env with
  | Some s => map trim (split "," s)
  | None => ["*"]
  end.

(** [request.headers.get("Origin") || "*"] *)
Definition requestOrigin (request : Request) : string :=
  orDefault (headers_get (headers request) "Origin") "*".

Definition getAllowedOrigin (request : Request) (env : Env) : string :=
  let requestOrigin := requestOrigin request in
  let allowedOrigins := allowedOrigins env in
  if includes allowedOrigins "*" then "*"
  else if includes allowedOrigins requestOrigin then requestOrigin
  else orDefault (head allowedOrigins) "*".

(** The response that [handleOptions] returns, when it returns. *)
Definition handleOptions (request : Request) (env : Env) : Response :=
  let origin := getAllowedOrigin request env in
  {| status := 204;
     res_headers := headers_of [
       ("Access-Control-Allow-Origin", origin);
       ("Access-Control-Allow-Methods", "GET, POST, OPTIONS");
       ("Access-Control-Allow-Headers", "Content-Type, X-API-Key, Authorization");
       ("Access-Control-Max-Age", "86400")];
     body := None |}.

(** The call [handleOptions(request, env)]: [new Response] throws when
    the origin is no valid header value; otherwise the response is the
    one [handleOptions] describes. *)
Definition tryHandleOptions (request : Request) (env : Env) : JsThrown + Response :=
  if validValue (getAllowedOrigin request env)
  then inr (handleOptions request env)
  else inl invalidHeaderValue.

Section Clock.

(** [new Date().toISOString()] at the time of the request. *)
Variable now : string.

Definition handleHealthCheck (env : Env) : Response :=
  let status := JObj [
    ("status", JStr "healthy");
    ("timestamp", JStr now);
    ("config", JObj [
       ("turnstile", JBool (truthyStr (TURNSTILE_SECRET_KEY env)));
       ("telegram", JBool (truthyStr (TELEGRAM_BOT_TOKEN env)
                           && truthyStr (TELEGRAM_CHAT_ID env)));
       ("apiKeyRequired", JBool (truthyStr (API_KEY env)))])] in
  successResponse "Service is healthy" status.

Definition handleNotification (request : Request) (env : Env) : Async Response :=
  let authResult := validateApiKey request env in
  if negb (auth_success authResult) then
    Resolve (errorResponse (orDefault (auth_error authResult) "Authentication failed") 401)
  else
    match json request with
    | None => Resolve (errorResponse "Invalid JSON body" 400)
    | Some body =>
        turnstile_token ← lift (getProp body "turnstile_token");
        if negb (truthy turnstile_token) then
          Resolve (errorResponse "Missing required field: turnstile_token" 400)
        else
          message ← lift (getProp body "message");
          if negb (truthy message) then
            Resolve (errorResponse "Missing required field: message" 400)
          else
            let clientIp := orElse (headers_get (headers request) "CF-Connecting-IP") None in
            turnstileResult ← verifyTurnstile turnstile_token env clientIp;
            if negb (Turnstile.success turnstileResult) then
              Resolve (errorResponse
                         (orDefault (Turnstile.error turnstileResult)
                                    "Turnstile verification failed") 403)
            else
              let action :=
                new_TelegramAction (TELEGRAM_BOT_TOKEN env) (TELEGRAM_CHAT_ID env) in
              if negb (validate action) then
                Resolve (errorResponse "Telegram action not properly configured" 500)
              else
                subject ← lift (getProp body "subject");
                metadata ← lift (getProp body "metadata");
                let payload :=
                  {| message := message; subject := subject; metadata := metadata |} in
                result ← execute action payload;
                if negb (Telegram.success result) then
                  Resolve (errorResponse (result_message result) 500)
                else
                  Resolve (successResponse (result_message result) JUndefined)
    end.

(** What is left of [handleNotification] for an object body whose two
    required fields passed the checks: steps 2 and 3. *)
Definition afterChecks (request : Request) (env : Env) (fields : list (string * JsValue))
  : Async Response :=
  let body := JObj fields in
  let clientIp := orElse (headers_get (headers request) "CF-Connecting-IP") None in
  turnstileResult ← verifyTurnstile (lookupField "turnstile_token" fields) env clientIp;
  if negb (Turnstile.success turnstileResult) then
    Resolve (errorResponse (orDefault (Turnstile.error turnstileResult)
                                      "Turnstile verification failed") 403)
  else
    let action := new_TelegramAction (TELEGRAM_BOT_TOKEN env) (TELEGRAM_CHAT_ID env) in
    if negb (validate action) then
      Resolve (errorResponse "Telegram action not properly configured" 500)
    else
      result ← execute action
                 {| message := lookupField "message" fields;
                    subject := lookupField "subject" fields;
                    metadata := lookupField "metadata" fields |};
      if negb (Telegram.success result) then
        Resolve (errorResponse (result_message result) 500)
      else
        Resolve (successResponse (result_message result) JUndefined).

Definition handleRequest (request : Request) (env : Env) : Async Response :=
  let path := pathname request in
  let method := method request in
  if String.eqb method "OPTIONS" then
    lift (tryHandleOptions request env)
  else
    response ←
      (if String.eqb path "/" || String.eqb path "/health" then
         Resolve (handleHealthCheck env)
       else if String.eqb path "/notify" || String.eqb path "/api/notify" then
         if negb (String.eqb method "POST") then
           Resolve (errorResponse "Method not allowed. Use POST." 405)
         else
           handleNotification request env
       else
         Resolve (errorResponse "Not found" 404));
    let origin := getAllowedOrigin request env in
    lift (tryWithCors response origin).

(** The entry point: [try { return await handleRequest(...) } catch ...] *)
Definition fetch (request : Request) (env : Env) : Async Response :=
  catch (handleRequest request env)
        (fun _ => Resolve (errorResponse "Internal server error" 500)).

End Clock.

(** The ways a run of [handleNotification] can go: the outbound calls it
    made and how it ended. *)
Inductive PipelineRun (w : World) (request : Request) (env : Env)
  : list OutboundRequest * (JsThrown + Response) -> Prop :=
| RunUnauthorized (msg : string) :
    auth_success (validateApiKey request env) = false ->
    PipelineRun w request env ([], inr (errorResponse msg 401))
| RunBadRequest (msg : string) :
    auth_success (validateApiKey request env) = true ->
    PipelineRun w request env ([], inr (errorResponse msg 400))
| RunThrown (e : JsThrown) :
    auth_success (validateApiKey request env) = true ->
    json request = Some JNull \/ json request = Some JUndefined ->
    PipelineRun w request env ([], inl e)
| RunNotVerifiable (msg : string) :
    auth_success (validateApiKey request env) = true ->
    PipelineRun w request env ([], inr (errorResponse msg 403))
| RunNotVerified (ts : OutboundRequest) (msg : string) :
    auth_success (validateApiKey request env) = true ->
    out_url ts = TURNSTILE_VERIFY_URL ->
    (forall ok d, turnstile_service w ts = Replied ok d -> ts_success d = false) ->
    PipelineRun w request env ([ts], inr (errorResponse msg 403))
| RunNotConfigured (ts : OutboundRequest) (ok : bool) (d : TurnstileResponse) :
    auth_success (validateApiKey request env) = true ->
    out_url ts = TURNSTILE_VERIFY_URL ->
    turnstile_service w ts = Replied ok d -> ts_success d = true ->
    validate (new_TelegramAction (TELEGRAM_BOT_TOKEN env) (TELEGRAM_CHAT_ID env)) = false ->
    PipelineRun w request env
      ([ts], inr (errorResponse "Telegram action not properly configured" 500))
| RunSendFailed (ts tg : OutboundRequest) (ok : bool) (d : TurnstileResponse)
    (msg : string) :
    auth_success (validateApiKey request env) = true ->
    out_url ts = TURNSTILE_VERIFY_URL ->
    turnstile_service w ts = Replied ok d -> ts_success d = true ->
    out_url tg = apiUrl (new_TelegramAction (TELEGRAM_BOT_TOKEN env) (TELEGRAM_CHAT_ID env))
                 +:+ "/sendMessage" ->
    (forall d', telegram_service w tg = Replied true d' -> tg_ok d' = false) ->
    PipelineRun w request env ([ts; tg], inr (errorResponse msg 500))
| RunSent (ts tg : OutboundRequest) (ok : bool) (d : TurnstileResponse)
    (d' : TelegramResponse) :
    auth_success (validateApiKey request env) = true ->
    out_url ts = TURNSTILE_VERIFY_URL ->
    turnstile_service w ts = Replied ok d -> ts_success d = true ->
    out_url tg = apiUrl (new_TelegramAction (TELEGRAM_BOT_TOKEN env) (TELEGRAM_CHAT_ID env))
                 +:+ "/sendMessage" ->
    telegram_service w tg = Replied true d' -> tg_ok d' = true ->
    PipelineRun w request env
      ([ts; tg], inr (successResponse "Notification sent successfully" JUndefined)).

(** What the entry point makes of a run of [handleNotification]. *)
Definition wrapRun (request : Request) (env : Env)
  (r : list OutboundRequest * (JsThrown + Response))
  : list OutboundRequest * (JsThrown + Response) :=
  match r with
  | (cs, inl _) => (cs, inr (errorResponse "Internal server error" 500))
  | (cs, inr response) =>
      match tryWithCors response (getAllowedOrigin request env) with
      | inr withHeaders => (cs, inr withHeaders)
      | inl _ => (cs, inr (errorResponse "Internal server error" 500))
      end
  end.

End Worker.

(* ===================================================================== *)
(** ** Sample requests and environments *)
(* ===================================================================== *)

Module Samples.
Import JsString Js Http Effects Telegram.

(** Nothing configured. *)
Definition bareEnv : Env :=
  {| TURNSTILE_SECRET_KEY := None;
     TELEGRAM_BOT_TOKEN := None;
     TELEGRAM_CHAT_ID := None;
     API_KEY := None;
     ALLOWED_ORIGINS := None |}.

Definition keyedEnv (key : string) : Env :=
  {| TURNSTILE_SECRET_KEY := None;
     TELEGRAM_BOT_TOKEN := None;
     TELEGRAM_CHAT_ID := None;
     API_KEY := Some key;
     ALLOWED_ORIGINS := None |}.

Definition originsEnv (origins : string) : Env :=
  {| TURNSTILE_SECRET_KEY := None;
     TELEGRAM_BOT_TOKEN := None;
     TELEGRAM_CHAT_ID := None;
     API_KEY := None;
     ALLOWED_ORIGINS := Some origins |}.

(** An allow-list whose first entry holds a line feed. *)
Definition brokenOriginsEnv : Env :=
  originsEnv ("https://a.example" +:+ newline +:+ "https://b.example").

(** Everything configured. *)
Definition fullEnv : Env :=
  {| TURNSTILE_SECRET_KEY := Some "ts-secret";
     TELEGRAM_BOT_TOKEN := Some "123:abc";
     TELEGRAM_CHAT_ID := Some "-1001";
     API_KEY := Some "secret";
     ALLOWED_ORIGINS := None |}.

(** [POST /notify] with the given headers and parsed body. *)
Definition notify (hs : list (string * string)) (body : option JsValue) : Request :=
  {| method := "POST"; pathname := "/notify"; headers := headers_of hs; json := body |}.

(** A request of the given method and path, without headers or body. *)
Definition plain (m path : string) : Request :=
  {| method := m; pathname := path; headers := ∅; json := None |}.

(** A well-formed notification body. *)
Definition goodBody : JsValue :=
  JObj [("turnstile_token", JStr "0.token"); ("message", JStr "hello")].

(** A world whose services accept, and one whose services are down. *)
Definition acceptingWorld : World :=
  {| turnstile_service := fun _ =>
       Replied true {| ts_success := true; ts_error_codes := None |};
     telegram_service := fun _ =>
       Replied true {| tg_ok := true; tg_description := None; tg_result := JNull |} |}.

Definition rejectingWorld : World :=
  {| turnstile_service := fun _ =>
       Replied true {| ts_success := false;
                       ts_error_codes := Some ["invalid-input-response"] |};
     telegram_service := fun _ =>
       Replied false {| tg_ok := false;
                        tg_description := Some "Bad Request: chat not found";
                        tg_result := JUndefined |} |}.

(** The payload of the formatter example. *)
Definition examplePayload : ActionPayload :=
  {| message := JStr " hello ";
     subject := JStr "Hi <there>";
     metadata := JObj [("a", JNum 1); ("b", JNull)] |}.

End Samples.

(* ===================================================================== *)
(** * Properties *)
(* ===================================================================== *)

Section Comparator.
Import JsString Auth.

Lemma charCodeAt_range s i : (0 <= charCodeAt s i < 2 ^ 16)%Z.
Proof.
  unfold charCodeAt. destruct (String.get i s) as [c|]; [|lia].
  pose proof (nat_ascii_bounded c). lia.
Qed.

Lemma toInt32_small z : (0 <= z < 2 ^ 16)%Z -> toInt32 z = z.
Proof.
  intros Hz. unfold toInt32.
  rewrite Z.mod_small; lia.
Qed.

Lemma log2_below z : (0 <= z < 2 ^ 16)%Z -> (Z.log2 z < 16)%Z.
Proof.
  intros [H0 H1]. destruct (Z.eq_dec z 0%Z) as [->|Hne]; [reflexivity|].
  apply Z.log2_lt_pow2; lia.
Qed.

Lemma below_log2 z : (0 <= z)%Z -> (Z.log2 z < 16)%Z -> (z < 2 ^ 16)%Z.
Proof.
  intros H0 Hl. destruct (Z.eq_dec z 0%Z) as [->|Hne]; [reflexivity|].
  apply Z.log2_lt_pow2; lia.
Qed.

Lemma lxor_range x y :
  (0 <= x < 2 ^ 16)%Z -> (0 <= y < 2 ^ 16)%Z -> (0 <= Z.lxor x y < 2 ^ 16)%Z.
Proof.
  intros Hx Hy.
  assert (H0 : (0 <= Z.lxor x y)%Z) by (apply Z.lxor_nonneg; lia).
  split; [exact H0|]. apply below_log2; [exact H0|].
  pose proof (Z.log2_lxor x y ltac:(lia) ltac:(lia)).
  pose proof (log2_below x Hx). pose proof (log2_below y Hy). lia.
Qed.

Lemma lor_range x y :
  (0 <= x < 2 ^ 16)%Z -> (0 <= y < 2 ^ 16)%Z -> (0 <= Z.lor x y < 2 ^ 16)%Z.
Proof.
  intros Hx Hy.
  assert (H0 : (0 <= Z.lor x y)%Z) by (apply Z.lor_nonneg; lia).
  split; [exact H0|]. apply below_log2; [exact H0|].
  rewrite Z.log2_lor by lia.
  pose proof (log2_below x Hx). pose proof (log2_below y Hy). lia.
Qed.

(** The loop keeps [result] a 16-bit value, counts one turn per index, and
    ends at 0 exactly when it started at 0 and every visited index holds
    the same code unit in both strings. *)
Lemma secureCompare_loop a b l : forall r n,
  (0 <= r < 2 ^ 16)%Z ->
  (0 <= fst (fold_left (secureCompare_step a b) l (r, n)) < 2 ^ 16)%Z /\
  snd (fold_left (secureCompare_step a b) l (r, n)) = n + length l /\
  (fst (fold_left (secureCompare_step a b) l (r, n)) = 0%Z <->
   r = 0%Z /\ Forall (fun i => charCodeAt a i = charCodeAt b i) l).
Proof.
  induction l as [|i l IH]; intros r n Hr; cbn [fold_left].
  - cbn. repeat split; try lia; intuition auto.
  - pose proof (lxor_range _ _ (charCodeAt_range a i) (charCodeAt_range b i)) as Hx.
    pose proof (lor_range _ _ Hr Hx) as Ho.
    replace (secureCompare_step a b (r, n) i)
      with (Z.lor r (Z.lxor (charCodeAt a i) (charCodeAt b i)), S n).
    2:{ unfold secureCompare_step. cbn [fst snd].
        rewrite (toInt32_small (Z.lxor _ _)) by exact Hx.
        rewrite (toInt32_small (Z.lor _ _)) by exact Ho. reflexivity. }
    destruct (IH (Z.lor r (Z.lxor (charCodeAt a i) (charCodeAt b i))) (S n) Ho)
      as (Hb & Hn & Hz).
    split; [exact Hb|]. split; [rewrite Hn; cbn; lia|].
    rewrite Hz, Z.lor_eq_0_iff, Z.lxor_eq_0_iff, Forall_cons_iff. tauto.
Qed.

Lemma charCodeAt_get a b i :
  i < String.length a -> String.length a = String.length b ->
  charCodeAt a i = charCodeAt b i -> String.get i a = String.get i b.
Proof.
  revert b i. induction a as [|c a IH]; intros [|d b] i Hi Hlen Hc; cbn in *; try lia.
  destruct i as [|i].
  - unfold charCodeAt in Hc. cbn in Hc.
    f_equal. apply Nat2Z.inj in Hc.
    rewrite <- (ascii_nat_embedding c), <- (ascii_nat_embedding d). congruence.
  - apply IH; [lia|lia|exact Hc].
Qed.

Lemma get_beyond s i : String.length s <= i -> String.get i s = None.
Proof.
  revert i. induction s as [|c s IH]; intros i Hi; [reflexivity|].
  destruct i as [|i]; cbn in *; [lia|]. apply IH. lia.
Qed.

Lemma secureCompare_true_iff a b : secureCompare a b = true <-> a = b.
Proof.
  unfold secureCompare, secureCompare_run.
  destruct (Nat.eqb_spec (String.length a) (String.length b)) as [Hlen|Hlen]; cbn [negb fst].
  - destruct (secureCompare_loop a b (seq 0 (String.length a)) 0%Z 0 ltac:(lia))
      as (_ & _ & Hz).
    rewrite Z.eqb_eq, Hz. split.
    + intros [_ Hall]. apply String.get_correct. intros i.
      destruct (Nat.lt_ge_cases i (String.length a)) as [Hi|Hi].
      * apply charCodeAt_get; [exact Hi|exact Hlen|].
        rewrite Forall_forall in Hall. apply Hall. apply elem_of_seq. lia.
      * rewrite !get_beyond by lia. reflexivity.
    + intros ->. split; [reflexivity|]. apply Forall_forall. reflexivity.
  - split; [discriminate|]. intros ->. contradiction.
Qed.

Lemma secureCompare_refl a : secureCompare a a = true.
Proof. apply secureCompare_true_iff. reflexivity. Qed.

Lemma secureCompare_neq a b : a <> b -> secureCompare a b = false.
Proof.
  intros Hne. destruct (secureCompare a b) eqn:E; [|reflexivity].
  apply secureCompare_true_iff in E. contradiction.
Qed.

(** On equal lengths the loop takes one turn per code unit, wherever the
    first mismatch is. *)
Lemma secureCompare_turns a b :
  String.length a = String.length b -> snd (secureCompare_run a b) = String.length a.
Proof.
  intros Hlen. unfold secureCompare_run.
  rewrite (proj2 (Nat.eqb_eq _ _) Hlen). cbn [negb snd].
  destruct (secureCompare_loop a b (seq 0 (String.length a)) 0%Z 0 ltac:(lia))
    as (_ & Hn & _).
  rewrite Hn, length_seq. reflexivity.
Qed.

(** C6. For strings of equal length [secureCompare] answers true exactly
    when the strings are equal; for strings of unequal length it answers
    false after zero turns of the scanning loop. *)
Theorem secureCompare_spec (a b : string) :
  (String.length a = String.length b -> (secureCompare a b = true <-> a = b)) /\
  (String.length a <> String.length b -> secureCompare_run a b = (false, 0)).
Proof.
  split.
  - intros _. apply secureCompare_true_iff.
  - intros Hlen. unfold secureCompare_run.
    rewrite (proj2 (Nat.eqb_neq _ _) Hlen). reflexivity.
Qed.

(** The theorem at a key against itself, and against a shorter guess. *)
Lemma secureCompare_spec_witness :
  (secureCompare "secret" "secret" = true <-> "secret" = "secret") /\
  secureCompare_run "secret" "sec" = (false, 0).
Proof.
  split.
  - apply (proj1 (secureCompare_spec "secret" "secret")). reflexivity.
  - apply (proj2 (secureCompare_spec "secret" "sec")). cbn. lia.
Defined.

End Comparator.

(* ===================================================================== *)
(** ** String replacement *)
(* ===================================================================== *)

Section Replace.
Import JsString.

Lemma append_nil_l (s : string) : "" +:+ s = s.
Proof. reflexivity. Qed.

Lemma append_cons (c : ascii) (a b : string) : String c a +:+ b = String c (a +:+ b).
Proof. reflexivity. Qed.

Lemma length_append (a b : string) :
  String.length (a +:+ b) = String.length a + String.length b.
Proof.
  induction a as [|c a IH]; [reflexivity|].
  rewrite append_cons. cbn [String.length]. rewrite IH. reflexivity.
Qed.

Lemma append_assoc (a b c : string) : (a +:+ b) +:+ c = a +:+ (b +:+ c).
Proof.
  induction a as [|x a IH]; [reflexivity|].
  rewrite !append_cons, IH. reflexivity.
Qed.

Lemma stripPrefix_Some pat s rest : stripPrefix pat s = Some rest <-> s = pat +:+ rest.
Proof.
  revert s. induction pat as [|c pat IH]; intros s; cbn [stripPrefix].
  - rewrite append_nil_l. split; congruence.
  - rewrite append_cons. destruct s as [|d s]; [split; discriminate|].
    destruct (Ascii.eqb_spec c d) as [->|Hne].
    + rewrite IH. split; congruence.
    + split; [discriminate|]. intros [=]. congruence.
Qed.

Lemma stripPrefix_append pat rest : stripPrefix pat (pat +:+ rest) = Some rest.
Proof. apply stripPrefix_Some. reflexivity. Qed.

Lemma replace_unfold pat rep s :
  replace pat rep s =
  match stripPrefix pat s with
  | Some rest => rep +:+ rest
  | None =>
      match s with
      | EmptyString => EmptyString
      | String c s' => String c (replace pat rep s')
      end
  end.
Proof. destruct s; reflexivity. Qed.

(** [replace] rewrites the first occurrence, wherever it is. *)
Lemma replace_first pat rep pre post s :
  firstOccurrence pat pre post s -> replace pat rep s = pre +:+ rep +:+ post.
Proof.
  revert s. induction pre as [|c pre IH]; intros s [-> Hmin].
  - rewrite !append_nil_l, replace_unfold, stripPrefix_append. reflexivity.
  - rewrite !append_cons, replace_unfold.
    destruct (stripPrefix pat (String c (pre +:+ pat +:+ post))) as [rest|] eqn:E.
    + apply stripPrefix_Some in E.
      specialize (Hmin "" rest). rewrite append_cons, append_nil_l in Hmin.
      specialize (Hmin E). cbn in Hmin. lia.
    + f_equal. apply IH. split; [reflexivity|].
      intros pre' post' E'.
      specialize (Hmin (String c pre') post'). rewrite !append_cons in Hmin.
      rewrite <- E' in Hmin. specialize (Hmin eq_refl). cbn in Hmin. lia.
Qed.

(** Without an occurrence the string is returned as it is. *)
Lemma replace_absent pat rep s : ~ occursIn pat s -> replace pat rep s = s.
Proof.
  induction s as [|c s IH]; intros Hno; rewrite replace_unfold.
  - destruct (stripPrefix pat "") as [rest|] eqn:E; [|reflexivity].
    apply stripPrefix_Some in E. exfalso. apply Hno. exists "", rest. exact E.
  - destruct (stripPrefix pat (String c s)) as [rest|] eqn:E.
    + apply stripPrefix_Some in E. exfalso. apply Hno. exists "", rest. exact E.
    + f_equal. apply IH. intros (pre & post & ->).
      apply Hno. exists (String c pre), post. reflexivity.
Qed.

(** With an occurrence and an empty replacement the string gets shorter
    by the length of the pattern. *)
Lemma replace_shorter pat s :
  occursIn pat s ->
  String.length (replace pat "" s) + String.length pat = String.length s.
Proof.
  induction s as [|c s IH]; intros Hocc; rewrite replace_unfold.
  - destruct Hocc as (pre & post & E).
    destruct pre; [|discriminate]. rewrite append_nil_l in E.
    destruct pat; [|discriminate]. reflexivity.
  - destruct (stripPrefix pat (String c s)) as [rest|] eqn:E.
    + apply stripPrefix_Some in E. rewrite E, append_nil_l, length_append. lia.
    + cbn [String.length]. rewrite <- IH; [lia|].
      destruct Hocc as (pre & post & Hs). destruct pre as [|d pre].
      * rewrite append_nil_l in Hs. apply stripPrefix_Some in Hs. congruence.
      * rewrite append_cons in Hs. injection Hs as _ ->. exists pre, post. reflexivity.
Qed.

End Replace.

(* ===================================================================== *)
(** ** The API-key gate *)
(* ===================================================================== *)

Section Gate.
Import JsString Js Http Auth Samples.

Lemma nonEmpty_true s : nonEmpty s = true <-> s <> "".
Proof.
  unfold nonEmpty. destruct (String.eqb_spec s ""); cbn; split; congruence.
Qed.

Lemma nonEmpty_false s : nonEmpty s = false <-> s = "".
Proof.
  unfold nonEmpty. destruct (String.eqb_spec s ""); cbn; split; congruence.
Qed.

Lemma truthyStr_false o : truthyStr o = false <-> o = None \/ o = Some "".
Proof.
  destruct o as [s|]; cbn.
  - rewrite nonEmpty_false. split; [intros ->; auto|intros [|[=]]; congruence].
  - split; auto.
Qed.

Lemma truthyStr_Some s : s <> "" -> truthyStr (Some s) = true.
Proof. intros H. apply nonEmpty_true. exact H. Qed.

(** A non-empty X-API-Key value is the candidate, whatever else is sent. *)
Lemma candidateKey_primary request v :
  headers_get (headers request) "X-API-Key" = Some v -> v <> "" ->
  candidateKey request = Some v.
Proof.
  intros Hx Hv. unfold candidateKey, orElse. rewrite Hx, truthyStr_Some by exact Hv.
  reflexivity.
Qed.

(** Otherwise the candidate comes from the Authorization header. *)
Lemma candidateKey_secondary request :
  truthyStr (headers_get (headers request) "X-API-Key") = false ->
  candidateKey request =
  replace "Bearer " "" <$> headers_get (headers request) "Authorization".
Proof. intros Hx. unfold candidateKey, orElse. rewrite Hx. reflexivity. Qed.

Lemma validateApiKey_unconfigured request env :
  truthyStr (API_KEY env) = false -> validateApiKey request env = authOk.
Proof. intros H. unfold validateApiKey. rewrite H. reflexivity. Qed.

Lemma validateApiKey_missing request env key :
  API_KEY env = Some key -> key <> "" ->
  truthyStr (candidateKey request) = false ->
  validateApiKey request env = authFailed missingKeyError.
Proof.
  intros Hk Hne Hc. unfold validateApiKey.
  rewrite Hk, truthyStr_Some, Hc by exact Hne. reflexivity.
Qed.

Lemma validateApiKey_candidate request env key c :
  API_KEY env = Some key -> key <> "" ->
  candidateKey request = Some c -> c <> "" ->
  validateApiKey request env =
  if String.eqb c key then authOk else authFailed "Invalid API key".
Proof.
  intros Hk Hne Hc Hcne. unfold validateApiKey.
  rewrite Hk, Hc, !truthyStr_Some by assumption. cbn [negb default].
  destruct (String.eqb_spec c key) as [->|Hd].
  - rewrite secureCompare_refl. reflexivity.
  - rewrite secureCompare_neq by exact Hd. reflexivity.
Qed.

(** C5, as amended. Without a configured key the gate succeeds whatever
    the headers are. With a configured key: when neither X-API-Key nor
    Authorization yields a candidate it fails with the missing-key error;
    when the extracted candidate differs from the key it fails with the
    invalid-key error; when the key itself is sent in X-API-Key, or as
    [Authorization: Bearer <key>] with no X-API-Key value, it succeeds.
    X-API-Key has precedence: a non-empty X-API-Key value other than the
    key fails with the invalid-key error whatever Authorization holds. *)
Theorem validateApiKey_gate (request : Request) (env : Env) :
  (API_KEY env = None \/ API_KEY env = Some "" ->
   validateApiKey request env = authOk) /\
  (forall key, API_KEY env = Some key -> key <> "" ->
     (truthyStr (headers_get (headers request) "X-API-Key") = false ->
      truthyStr (replace "Bearer " "" <$> headers_get (headers request) "Authorization")
        = false ->
      validateApiKey request env = authFailed missingKeyError) /\
     (forall c, candidateKey request = Some c -> c <> "" -> c <> key ->
      validateApiKey request env = authFailed "Invalid API key") /\
     (headers_get (headers request) "X-API-Key" = Some key ->
      validateApiKey request env = authOk) /\
     (truthyStr (headers_get (headers request) "X-API-Key") = false ->
      headers_get (headers request) "Authorization" = Some ("Bearer " +:+ key) ->
      validateApiKey request env = authOk) /\
     (forall v, headers_get (headers request) "X-API-Key" = Some v ->
      v <> "" -> v <> key ->
      validateApiKey request env = authFailed "Invalid API key")).
Proof.
  split.
  - intros H. apply validateApiKey_unconfigured, truthyStr_false. exact H.
  - intros key Hk Hne. split; [|split; [|split; [|split]]].
    + intros Hx Ha. apply (validateApiKey_missing _ _ key); [assumption..|].
      rewrite candidateKey_secondary by exact Hx. exact Ha.
    + intros c Hc Hcne Hd.
      rewrite (validateApiKey_candidate _ _ key c) by assumption.
      rewrite (proj2 (String.eqb_neq c key) Hd). reflexivity.
    + intros Hx.
      rewrite (validateApiKey_candidate _ _ key key); try assumption.
      * rewrite String.eqb_refl. reflexivity.
      * apply candidateKey_primary; assumption.
    + intros Hx Ha.
      rewrite (validateApiKey_candidate _ _ key key); try assumption.
      * rewrite String.eqb_refl. reflexivity.
      * rewrite candidateKey_secondary, Ha by exact Hx. cbn [fmap option_fmap option_map].
        rewrite replace_unfold, stripPrefix_append. reflexivity.
    + intros v Hx Hv Hd.
      rewrite (validateApiKey_candidate _ _ key v); try assumption.
      * rewrite (proj2 (String.eqb_neq v key) Hd). reflexivity.
      * apply candidateKey_primary; assumption.
Qed.

(** The gate on six requests: no key configured; no header; a wrong
    X-API-Key; the key in X-API-Key; the key as a bearer token; a wrong
    X-API-Key next to the key as a bearer token. *)
Lemma validateApiKey_gate_witness :
  validateApiKey (notify [("X-API-Key", "anything")] None) bareEnv = authOk /\
  validateApiKey (notify [] None) (keyedEnv "secret") = authFailed missingKeyError /\
  validateApiKey (notify [("X-API-Key", "guess")] None) (keyedEnv "secret")
    = authFailed "Invalid API key" /\
  validateApiKey (notify [("X-API-Key", "secret")] None) (keyedEnv "secret") = authOk /\
  validateApiKey (notify [("Authorization", "Bearer secret")] None) (keyedEnv "secret")
    = authOk /\
  validateApiKey (notify [("X-API-Key", "wrong"); ("Authorization", "Bearer secret")] None)
    (keyedEnv "secret") = authFailed "Invalid API key".
Proof.
  split; [|split; [|split; [|split; [|split]]]].
  - apply (proj1 (validateApiKey_gate _ bareEnv)). left. reflexivity.
  - destruct (proj2 (validateApiKey_gate (notify [] None) (keyedEnv "secret"))
                "secret" eq_refl ltac:(discriminate)) as (Hmissing & _).
    apply Hmissing; vm_compute; reflexivity.
  - destruct (proj2 (validateApiKey_gate (notify [("X-API-Key", "guess")] None)
                       (keyedEnv "secret"))
                "secret" eq_refl ltac:(discriminate)) as (_ & Hinvalid & _).
    apply (Hinvalid "guess"); [vm_compute; reflexivity | discriminate | discriminate].
  - destruct (proj2 (validateApiKey_gate (notify [("X-API-Key", "secret")] None)
                       (keyedEnv "secret"))
                "secret" eq_refl ltac:(discriminate)) as (_ & _ & Hprimary & _).
    apply Hprimary. vm_compute. reflexivity.
  - destruct (proj2 (validateApiKey_gate
                       (notify [("Authorization", "Bearer secret")] None)
                       (keyedEnv "secret"))
                "secret" eq_refl ltac:(discriminate)) as (_ & _ & _ & Hbearer & _).
    apply Hbearer; vm_compute; reflexivity.
  - destruct (proj2 (validateApiKey_gate
                       (notify [("X-API-Key", "wrong"); ("Authorization", "Bearer secret")]
                          None)
                       (keyedEnv "secret"))
                "secret" eq_refl ltac:(discriminate)) as (_ & _ & _ & _ & Hfirst).
    apply (Hfirst "wrong"); [vm_compute; reflexivity | discriminate | discriminate].
Defined.

(** The matching key sent in the bearer form does not pass when a
    different X-API-Key value comes with it: the request carries
    [Authorization: Bearer secret] for the configured key [secret], and
    the gate fails with the invalid-key error. *)
Lemma validateApiKey_bearer_counterexample :
  API_KEY (keyedEnv "secret") = Some "secret" /\
  headers_get
    (headers (notify [("X-API-Key", "guess"); ("Authorization", "Bearer secret")] None))
    "Authorization" = Some "Bearer secret" /\
  validateApiKey
    (notify [("X-API-Key", "guess"); ("Authorization", "Bearer secret")] None)
    (keyedEnv "secret") = authFailed "Invalid API key".
Proof. repeat split; vm_compute; reflexivity. Qed.

End Gate.

Section Bearer.
Import JsString Js Http Auth Samples.

Lemma validateApiKey_success_iff request env key :
  API_KEY env = Some key -> key <> "" ->
  (auth_success (validateApiKey request env) = true <-> candidateKey request = Some key).
Proof.
  intros Hk Hne. destruct (candidateKey request) as [c|] eqn:Hc.
  - destruct (String.eqb_spec c "") as [->|Hcne].
    + rewrite (validateApiKey_missing _ _ key) by (rewrite ?Hc; auto).
      cbn. split; [discriminate|congruence].
    + rewrite (validateApiKey_candidate _ _ key c) by assumption.
      destruct (String.eqb_spec c key) as [->|Hd]; cbn; split; congruence.
  - rewrite (validateApiKey_missing _ _ key) by (rewrite ?Hc; auto).
    cbn. split; discriminate.
Qed.

(** C10, as amended. With a key configured and no X-API-Key value, the
    candidate is the Authorization value with the first occurrence of
    "Bearer " removed, wherever it stands, and the value itself when there
    is none. A bare key authenticates when it does not contain "Bearer ",
    and is rejected when it does; sent as "Bearer " followed by the key,
    every key authenticates, one that contains "Bearer " too. *)
Theorem bearer_candidate (request : Request) (env : Env) (key v : string) :
  API_KEY env = Some key -> key <> "" ->
  truthyStr (headers_get (headers request) "X-API-Key") = false ->
  headers_get (headers request) "Authorization" = Some v ->
  (forall pre post, firstOccurrence "Bearer " pre post v ->
                    candidateKey request = Some (pre +:+ post)) /\
  (~ occursIn "Bearer " v -> candidateKey request = Some v) /\
  (v = key -> ~ occursIn "Bearer " key ->
   auth_success (validateApiKey request env) = true) /\
  (v = key -> occursIn "Bearer " key ->
   auth_success (validateApiKey request env) = false) /\
  (v = "Bearer " +:+ key -> auth_success (validateApiKey request env) = true).
Proof.
  intros Hk Hne Hx Ha.
  assert (Hc : candidateKey request = Some (replace "Bearer " "" v)).
  { rewrite candidateKey_secondary, Ha by exact Hx. reflexivity. }
  split; [|split; [|split; [|split]]].
  - intros pre post Hfirst. rewrite Hc.
    rewrite (replace_first _ _ pre post) by exact Hfirst. reflexivity.
  - intros Hno. rewrite Hc, replace_absent by exact Hno. reflexivity.
  - intros -> Hno. apply (validateApiKey_success_iff _ _ key Hk Hne).
    rewrite Hc, replace_absent by exact Hno. reflexivity.
  - intros -> Hocc.
    destruct (auth_success (validateApiKey request env)) eqn:E; [|reflexivity].
    apply (validateApiKey_success_iff _ _ key Hk Hne) in E.
    rewrite Hc in E. injection E as E.
    pose proof (replace_shorter "Bearer " key Hocc) as Hlen.
    rewrite E in Hlen. cbn in Hlen. lia.
  - intros ->. apply (validateApiKey_success_iff _ _ key Hk Hne).
    rewrite Hc, replace_unfold, stripPrefix_append. reflexivity.
Qed.

(** A key that contains "Bearer " does authenticate through the
    Authorization header: the prefix that is removed is the one in front
    of the key. *)
Lemma bearer_key_counterexample :
  occursIn "Bearer " "my Bearer key" /\
  headers_get (headers (notify [("Authorization", "Bearer my Bearer key")] None))
    "X-API-Key" = None /\
  validateApiKey (notify [("Authorization", "Bearer my Bearer key")] None)
    (keyedEnv "my Bearer key") = authOk.
Proof.
  split; [|split].
  - exists "my ", "key". reflexivity.
  - vm_compute. reflexivity.
  - vm_compute. reflexivity.
Qed.

(** The theorem at the key "my Bearer key" sent as a bearer token. *)
Lemma bearer_candidate_witness :
  auth_success
    (validateApiKey (notify [("Authorization", "Bearer my Bearer key")] None)
       (keyedEnv "my Bearer key")) = true.
Proof.
  refine (proj2 (proj2 (proj2 (proj2
    (bearer_candidate (notify [("Authorization", "Bearer my Bearer key")] None)
       (keyedEnv "my Bearer key") "my Bearer key" "Bearer my Bearer key"
       eq_refl _ _ _)))) eq_refl).
  - discriminate.
  - vm_compute. reflexivity.
  - vm_compute. reflexivity.
Defined.

End Bearer.

(* ===================================================================== *)
(** ** The allowed origin *)
(* ===================================================================== *)

Section Origin.
Import JsString Js Http Worker Samples.

Lemma includes_In l x : includes l x = true <-> In x l.
Proof.
  unfold includes. rewrite existsb_exists. split.
  - intros (y & Hy & E). apply String.eqb_eq in E. subst. exact Hy.
  - intros H. exists x. split; [exact H|apply String.eqb_refl].
Qed.

Lemma includes_not_In l x : includes l x = false <-> ~ In x l.
Proof.
  rewrite <- includes_In. destruct (includes l x); split; congruence.
Qed.

Lemma split_nonempty sep s : split sep s <> [].
Proof.
  destruct s as [|c s]; cbn; [discriminate|].
  destruct (Ascii.eqb sep c); [discriminate|].
  destruct (split sep s); discriminate.
Qed.

(** The allow-list always has a first entry. *)
Lemma allowedOrigins_head env : exists first, head (allowedOrigins env) = Some first.
Proof.
  unfold allowedOrigins. destruct (ALLOWED_ORIGINS env) as [s|]; [|eexists; reflexivity].
  pose proof (split_nonempty "," s) as Hne.
  destruct (split "," s); [contradiction|]. eexists. reflexivity.
Qed.

Lemma requestOrigin_header request o :
  headers_get (headers request) "Origin" = Some o -> o <> "" -> requestOrigin request = o.
Proof.
  intros Ho Hne. unfold requestOrigin, orDefault.
  rewrite Ho, (proj2 (nonEmpty_true o) Hne). reflexivity.
Qed.

Lemma requestOrigin_cases request :
  requestOrigin request = "*" \/
  exists o, headers_get (headers request) "Origin" = Some o /\ o <> "" /\
            requestOrigin request = o.
Proof.
  unfold requestOrigin, orDefault.
  destruct (headers_get (headers request) "Origin") as [o|]; [|left; reflexivity].
  destruct (nonEmpty o) eqn:E; [|left; reflexivity].
  right. exists o. rewrite nonEmpty_true in E. auto.
Qed.

(** C7, as amended. The result is "*" when no allow-list is configured
    or the list contains "*"; otherwise a non-empty Origin header value
    that is in the list is echoed; otherwise the result is the first entry
    of the list when that entry is not empty, and "*" when it is empty
    (the list always has a first entry). *)
Theorem getAllowedOrigin_spec (request : Request) (env : Env) :
  (ALLOWED_ORIGINS env = None -> getAllowedOrigin request env = "*") /\
  (In "*" (allowedOrigins env) -> getAllowedOrigin request env = "*") /\
  (~ In "*" (allowedOrigins env) ->
   forall o, headers_get (headers request) "Origin" = Some o -> o <> "" ->
             In o (allowedOrigins env) -> getAllowedOrigin request env = o) /\
  (~ In "*" (allowedOrigins env) ->
   (forall o, headers_get (headers request) "Origin" = Some o -> o <> "" ->
              ~ In o (allowedOrigins env)) ->
   exists first, head (allowedOrigins env) = Some first /\
                 getAllowedOrigin request env = if nonEmpty first then first else "*").
Proof.
  split; [|split; [|split]].
  - intros Hnone. unfold getAllowedOrigin, allowedOrigins. rewrite Hnone. reflexivity.
  - intros Hstar. unfold getAllowedOrigin.
    rewrite (proj2 (includes_In _ _) Hstar). reflexivity.
  - intros Hstar o Ho Hne Hin. unfold getAllowedOrigin.
    rewrite (proj2 (includes_not_In _ _) Hstar).
    rewrite (requestOrigin_header _ o Ho Hne).
    rewrite (proj2 (includes_In _ _) Hin). reflexivity.
  - intros Hstar Hout. destruct (allowedOrigins_head env) as (first & Hfirst).
    exists first. split; [exact Hfirst|]. unfold getAllowedOrigin.
    rewrite (proj2 (includes_not_In _ _) Hstar).
    assert (Hreq : includes (allowedOrigins env) (requestOrigin request) = false).
    { apply includes_not_In.
      destruct (requestOrigin_cases request) as [->|(o & Ho & Hne & ->)];
        [exact Hstar|exact (Hout o Ho Hne)]. }
    rewrite Hreq, Hfirst. reflexivity.
Qed.

(** With the allow-list ",https://a.example" and a foreign origin, the
    list does not contain "*", the origin is not in it, a first entry
    exists (it is empty), and the result is "*", which is no entry of the
    list. With the allow-list "" and an empty Origin header, the header
    value is in the list and the result is "*" all the same. *)
Lemma getAllowedOrigin_first_entry_counterexample :
  (allowedOrigins (originsEnv ",https://a.example") = [""; "https://a.example"] /\
   requestOrigin (notify [("Origin", "https://evil.example")] None)
     = "https://evil.example" /\
   head (allowedOrigins (originsEnv ",https://a.example")) = Some "" /\
   getAllowedOrigin (notify [("Origin", "https://evil.example")] None)
     (originsEnv ",https://a.example") = "*") /\
  (allowedOrigins (originsEnv "") = [""] /\
   headers_get (headers (notify [("Origin", "")] None)) "Origin" = Some "" /\
   getAllowedOrigin (notify [("Origin", "")] None) (originsEnv "") = "*").
Proof. repeat split; vm_compute; reflexivity. Qed.

(** The theorem at an origin of the list, and at a foreign origin. *)
Lemma getAllowedOrigin_spec_witness :
  getAllowedOrigin (notify [("Origin", "https://b.example")] None)
    (originsEnv "https://a.example, https://b.example") = "https://b.example" /\
  exists first,
    head (allowedOrigins (originsEnv "https://a.example, https://b.example")) = Some first /\
    getAllowedOrigin (notify [("Origin", "https://evil.example")] None)
      (originsEnv "https://a.example, https://b.example")
    = if nonEmpty first then first else "*".
Proof.
  split.
  - destruct (getAllowedOrigin_spec (notify [("Origin", "https://b.example")] None)
                (originsEnv "https://a.example, https://b.example"))
      as (_ & _ & Hecho & _).
    apply Hecho.
    + vm_compute. intros [H|[H|[]]]; discriminate H.
    + vm_compute. reflexivity.
    + discriminate.
    + vm_compute. right. left. reflexivity.
  - destruct (getAllowedOrigin_spec (notify [("Origin", "https://evil.example")] None)
                (originsEnv "https://a.example, https://b.example"))
      as (_ & _ & _ & Hfallback).
    apply Hfallback.
    + vm_compute. intros [H|[H|[]]]; discriminate H.
    + intros o Ho _. vm_compute in Ho. injection Ho as <-.
      vm_compute. intros [H|[H|[]]]; discriminate H.
Defined.

End Origin.


(* ===================================================================== *)
(** ** The challenge verifier *)
(* ===================================================================== *)

Section Verifier.
Import JsString Js Http Effects Turnstile Samples.

(** C8. Without a verification secret [verifyTurnstile] resolves at once
    to the failed outcome "Turnstile secret key not configured"; with a
    secret and an empty (falsy) token it resolves at once to the failed
    outcome "Missing Turnstile token". In both cases the computation has
    no await in it: whatever the world, no outbound call is made. (An
    empty token without a secret meets the first guard: the outcome is
    failed and no call is made either.) *)
Theorem verifyTurnstile_guards (token : JsValue) (env : Env) (remoteIp : option string) :
  (truthyStr (TURNSTILE_SECRET_KEY env) = false ->
   verifyTurnstile token env remoteIp
   = Resolve {| success := false;
                error := Some "Turnstile secret key not configured";
                details := None |} /\
   forall w, calls w (verifyTurnstile token env remoteIp) = []) /\
  (truthyStr (TURNSTILE_SECRET_KEY env) = true -> truthy token = false ->
   verifyTurnstile token env remoteIp
   = Resolve {| success := false;
                error := Some "Missing Turnstile token";
                details := None |} /\
   forall w, calls w (verifyTurnstile token env remoteIp) = []) /\
  (truthy token = false ->
   (exists msg, verifyTurnstile token env remoteIp
                = Resolve {| success := false; error := Some msg; details := None |}) /\
   forall w, calls w (verifyTurnstile token env remoteIp) = []).
Proof.
  split; [|split].
  - intros Hs. unfold verifyTurnstile. rewrite Hs. cbn [negb].
    split; [reflexivity|]. intros w. reflexivity.
  - intros Hs Ht. unfold verifyTurnstile. rewrite Hs, Ht. cbn [negb].
    split; [reflexivity|]. intros w. reflexivity.
  - intros Ht. unfold verifyTurnstile. rewrite Ht.
    destruct (truthyStr (TURNSTILE_SECRET_KEY env)); cbn [negb];
      (split; [eexists; reflexivity|intros w; reflexivity]).
Qed.

(** The theorem with nothing configured, and with a secret and the empty
    token. *)
Lemma verifyTurnstile_guards_witness :
  (verifyTurnstile (JStr "0.token") bareEnv None
   = Resolve {| success := false;
                error := Some "Turnstile secret key not configured";
                details := None |} /\
   forall w, calls w (verifyTurnstile (JStr "0.token") bareEnv None) = []) /\
  (verifyTurnstile (JStr "") fullEnv None
   = Resolve {| success := false;
                error := Some "Missing Turnstile token";
                details := None |} /\
   forall w, calls w (verifyTurnstile (JStr "") fullEnv None) = []).
Proof.
  split.
  - apply (proj1 (verifyTurnstile_guards (JStr "0.token") bareEnv None)). reflexivity.
  - apply (proj1 (proj2 (verifyTurnstile_guards (JStr "") fullEnv None))); reflexivity.
Defined.

(** Past the two guards exactly one call goes out, to the verification
    endpoint. *)
Lemma verifyTurnstile_calls token env remoteIp w :
  truthyStr (TURNSTILE_SECRET_KEY env) = true -> truthy token = true ->
  exists rq, calls w (verifyTurnstile token env remoteIp) = [rq] /\
             out_url rq = TURNSTILE_VERIFY_URL.
Proof.
  intros Hs Ht. unfold verifyTurnstile. rewrite Hs, Ht. cbn [negb].
  eexists. unfold calls. cbn [run].
  destruct (turnstile_service w _) as [e|ok data]; [split; reflexivity|].
  destruct (ts_success data); split; reflexivity.
Qed.

Lemma hasChar_append c a b : hasChar c (a +:+ b) = hasChar c a || hasChar c b.
Proof.
  induction a as [|d a IH]; [reflexivity|].
  rewrite append_cons. cbn [hasChar]. rewrite IH, orb_assoc. reflexivity.
Qed.

Lemma join_cons sep x y l : join sep (x :: y :: l) = x +:+ sep +:+ join sep (y :: l).
Proof. reflexivity. Qed.

(** A code of the table is described by its entry, and no description is
    the generic message. *)
Lemma describe_known code d :
  In (code, d) ERROR_CODES_entries -> describe code = d /\ d <> unknownError.
Proof.
  unfold ERROR_CODES_entries. cbn [In].
  intros H. repeat (destruct H as [[= <- <-]|H]; [split; [vm_compute; reflexivity|discriminate]|]).
  contradiction.
Qed.

Lemma ERROR_CODES_lookup code d :
  ERROR_CODES !! code = Some d <-> In (code, d) ERROR_CODES_entries.
Proof.
  unfold ERROR_CODES. rewrite <- list_elem_of_In. split.
  - apply elem_of_list_to_map_2.
  - apply elem_of_list_to_map_1. vm_compute.
    repeat (constructor; [rewrite ?elem_of_cons, elem_of_nil; intuition discriminate|]).
    constructor.
Qed.

(** A code that is neither in the table nor a name that every object
    inherits is passed through as it is. *)
Lemma describe_unknown code :
  ERROR_CODES !! code = None -> inheritedText code = None -> describe code = code.
Proof. intros H Hi. unfold describe. rewrite H, Hi. reflexivity. Qed.

Lemma nativeFunctionText_not_generic name : nativeFunctionText name <> unknownError.
Proof.
  intros H. apply (f_equal (String.get 0)) in H. vm_compute in H. discriminate H.
Qed.

Lemma inheritedText_not_generic code text :
  inheritedText code = Some text -> text <> unknownError.
Proof.
  unfold inheritedText.
  destruct (String.eqb code "constructor");
    [intros [= <-]; apply nativeFunctionText_not_generic|].
  destruct (String.eqb code "__proto__"); [intros [= <-]; discriminate|].
  destruct (existsb _ _); [|discriminate].
  intros [= <-]. apply nativeFunctionText_not_generic.
Qed.

Lemma describe_generic code : describe code = unknownError -> code = unknownError.
Proof.
  intros H. destruct (ERROR_CODES !! code) as [d|] eqn:E.
  - apply ERROR_CODES_lookup, describe_known in E. destruct E as [E1 E2]. congruence.
  - unfold describe in H. rewrite E in H.
    destruct (inheritedText code) as [text|] eqn:Ei; [|exact H].
    destruct (inheritedText_not_generic _ _ Ei H).
Qed.

(** C9, as amended. Each code of the table is replaced by its
    description; a code that is neither in the table nor one of the names
    every object inherits is passed through as it is; the results are
    joined with "; ". An absent or empty list gives "Unknown verification
    error"; a non-empty list gives that same text only when it is the
    single code spelled "Unknown verification error". (What becomes of an
    inherited name such as "constructor" is not part of the statement.) *)
Theorem getErrorMessage_spec (codes : option (list string)) :
  (forall code d, ERROR_CODES !! code = Some d -> describe code = d) /\
  (forall code, ERROR_CODES !! code = None -> inheritedText code = None ->
                describe code = code) /\
  (forall l, codes = Some l -> l <> [] ->
             getErrorMessage codes = join "; " (map describe l)) /\
  (codes = None \/ codes = Some [] -> getErrorMessage codes = unknownError) /\
  (getErrorMessage codes = unknownError <->
   codes = None \/ codes = Some [] \/ codes = Some [unknownError]).
Proof.
  split; [|split; [|split; [|split]]].
  - intros code d H. apply ERROR_CODES_lookup, describe_known in H. apply H.
  - apply describe_unknown.
  - intros l -> Hne. destruct l; [contradiction|reflexivity].
  - intros [->| ->]; reflexivity.
  - split.
    + destruct codes as [[|x [|y l]]|]; auto.
      * cbn. intros H. apply describe_generic in H. subst. auto.
      * unfold getErrorMessage. rewrite map_cons, map_cons, join_cons. intros H.
        apply (f_equal (hasChar ";")) in H.
        rewrite !hasChar_append in H.
        change (hasChar ";" "; ") with true in H.
        change (hasChar ";" unknownError) with false in H.
        rewrite orb_true_l, orb_true_r in H. discriminate.
    + intros [->|[->| ->]]; reflexivity.
Qed.

(** The generic message for a list that is neither absent nor empty. *)
Lemma getErrorMessage_generic_counterexample :
  getErrorMessage (Some ["Unknown verification error"]) = "Unknown verification error" /\
  Some ["Unknown verification error"] <> None /\
  Some ["Unknown verification error"] <> Some (@nil string).
Proof. split; [vm_compute; reflexivity|split; discriminate]. Qed.

(** A code that is no key of the table but a name found in
    [Object.prototype] is neither described nor passed through. *)
Example getErrorMessage_inherited_name :
  ERROR_CODES !! "constructor" = None /\
  getErrorMessage (Some ["constructor"]) = "function Object() { [native code] }".
Proof. split; vm_compute; reflexivity. Qed.

End Verifier.

(* ===================================================================== *)
(** ** The message formatter *)
(* ===================================================================== *)

Section Formatter.
Import JsString Js Http Telegram Samples.

Lemma append_nonempty_l a b : a <> "" -> a +:+ b <> "".
Proof. destruct a; [contradiction|]. intros _. rewrite append_cons. discriminate. Qed.

Lemma replaceAll_empty_iff c rep s : rep <> "" -> (replaceAll c rep s = "" <-> s = "").
Proof.
  intros Hrep. destruct s as [|d s]; [split; reflexivity|].
  split; [|discriminate]. cbn [replaceAll]. intros H. exfalso.
  revert H. apply append_nonempty_l. destruct (Ascii.eqb c d); [exact Hrep|discriminate].
Qed.

Lemma escapeHtml_empty_iff s : escapeHtml s = "" <-> s = "".
Proof.
  unfold escapeHtml. rewrite !replaceAll_empty_iff by discriminate. reflexivity.
Qed.




(** C3, as amended. The example payload is formatted as three lines
    joined by newlines: the escaped subject in bold markup, the trimmed
    message, and the fragment for [a], whose key stands in bold markup
    before the value; [b], being null, leaves no line. *)
Theorem formatMessage_example :
  (subjectFields (subject examplePayload) ++ messageFields (message examplePayload)
   ++ metadataFields (metadata examplePayload))%list
  = ["<b>Hi &lt;there&gt;</b>"; "hello"; "<b>a:</b> 1"] /\
  formatMessage examplePayload
  = "<b>Hi &lt;there&gt;</b>" +:+ newline +:+ "hello" +:+ newline +:+ "<b>a:</b> 1".
Proof. split; vm_compute; reflexivity. Qed.

(** The third line of the example is not the plain fragment. *)
Lemma formatMessage_example_counterexample :
  metadataFields (metadata examplePayload) = ["<b>a:</b> 1"] /\
  formatMessage examplePayload
  <> "<b>Hi &lt;there&gt;</b>" +:+ newline +:+ "hello" +:+ newline +:+ "a: 1".
Proof. split; [vm_compute; reflexivity|vm_compute; discriminate]. Qed.








End Formatter.

(* ===================================================================== *)
(** ** The router and the entry point *)
(* ===================================================================== *)

Section Router.
Import JsString Js Http Effects Auth Turnstile Telegram ResponseUtil Worker Samples.

Lemma run_bind {A B} (w : World) (m : Async A) (f : A -> Async B) :
  run w (m ≫= f)
  = match run w m with
    | (cs, inl e) => (cs, inl e)
    | (cs, inr a) => let '(cs', r) := run w (f a) in ((cs ++ cs')%list, r)
    end.
Proof.
  unfold mbind, Async_bind.
  induction m as [a|e|rq k IH|rq k IH]; cbn [bind run].
  - destruct (run w (f a)). reflexivity.
  - reflexivity.
  - rewrite IH. destruct (run w (k (turnstile_service w rq))) as [cs [e|a]].
    + reflexivity.
    + destruct (run w (f a)). reflexivity.
  - rewrite IH. destruct (run w (k (telegram_service w rq))) as [cs [e|a]].
    + reflexivity.
    + destruct (run w (f a)). reflexivity.
Qed.

Lemma outcome_bind {A B} (w : World) (m : Async A) (f : A -> Async B) :
  outcome w (m ≫= f)
  = match outcome w m with
    | inl e => inl e
    | inr a => outcome w (f a)
    end.
Proof.
  unfold outcome. rewrite run_bind.
  destruct (run w m) as [cs [e|a]]; [reflexivity|].
  cbn [snd]. destruct (run w (f a)). reflexivity.
Qed.

Lemma outcome_await_turnstile {A} (w : World) rq (k : Reply TurnstileResponse -> Async A) :
  outcome w (AwaitTurnstile rq k) = outcome w (k (turnstile_service w rq)).
Proof. unfold outcome. cbn [run]. destruct (run w _). reflexivity. Qed.

Lemma outcome_await_telegram {A} (w : World) rq (k : Reply TelegramResponse -> Async A) :
  outcome w (AwaitTelegram rq k) = outcome w (k (telegram_service w rq)).
Proof. unfold outcome. cbn [run]. destruct (run w _). reflexivity. Qed.

Lemma outcome_catch {A} (w : World) (m : Async A) (h : JsThrown -> Async A) :
  outcome w (catch m h)
  = match outcome w m with
    | inl e => outcome w (h e)
    | inr a => inr a
    end.
Proof.
  induction m as [a|e|rq k IH|rq k IH]; cbn [catch].
  - reflexivity.
  - reflexivity.
  - rewrite !outcome_await_turnstile. apply IH.
  - rewrite !outcome_await_telegram. apply IH.
Qed.

(** Lookups in a header map built by [headers_of] and [headers_set]. *)
Ltac header_lookups :=
  unfold headers_of, headers_append, headers_set, headers_get;
  cbn [res_headers fold_left fst snd];
  repeat split; simplify_map_eq; reflexivity.

Lemma withCors_hasCors response origin :
  hasCors (normalizeValue origin) (withCors response origin).
Proof. unfold hasCors, withCors. header_lookups. Qed.

Lemma handleOptions_hasCors request env :
  hasCors (normalizeValue (getAllowedOrigin request env)) (handleOptions request env).
Proof.
  unfold hasCors, handleOptions, headers_of, headers_append, headers_get.
  cbn [res_headers fold_left fst snd].
  repeat split; simplify_map_eq; reflexivity.
Qed.

(** Whatever [handleRequest] returns carries the four CORS headers. *)
Lemma handleRequest_hasCors now request env w response :
  outcome w (handleRequest now request env) = inr response ->
  hasCors (normalizeValue (getAllowedOrigin request env)) response.
Proof.
  unfold handleRequest. destruct (String.eqb (method request) "OPTIONS").
  - unfold tryHandleOptions. destruct (validValue _); [|discriminate].
    intros [= <-]. apply handleOptions_hasCors.
  - rewrite outcome_bind.
    destruct (outcome w _) as [e|r]; [discriminate|].
    unfold tryWithCors. destruct (validValue _); [|discriminate].
    intros [= <-]. apply withCors_hasCors.
Qed.

Lemma errorResponse_status msg st : status (errorResponse msg st) = st.
Proof. reflexivity. Qed.

(** An error envelope built by [errorResponse] has the content type and
    none of the CORS headers. *)
Lemma errorResponse_lacksCors msg st : lacksCors (errorResponse msg st).
Proof. unfold lacksCors, errorResponse, jsonResponse. header_lookups. Qed.

(** The entry point never rejects: it returns what [handleRequest]
    returns, and the fixed 500 envelope when [handleRequest] throws. *)
Lemma fetch_outcome now request env w :
  outcome w (fetch now request env)
  = match outcome w (handleRequest now request env) with
    | inl _ => inr (errorResponse "Internal server error" 500)
    | inr response => inr response
    end.
Proof.
  unfold fetch. rewrite outcome_catch.
  destruct (outcome w (handleRequest now request env)); reflexivity.
Qed.

(** Reading a property of a body that is not [null] does not throw. *)
Lemma getProp_defined body name :
  body <> JNull -> body <> JUndefined -> exists v, getProp body name = inr v.
Proof. destruct body; intros H1 H2; try contradiction; eexists; reflexivity. Qed.

Lemma truthy_getProp_object body name v :
  getProp body name = inr v -> truthy v = true -> exists fields, body = JObj fields.
Proof.
  destruct body; cbn; intros [= <-] Ht; try discriminate. eexists. reflexivity.
Qed.

(** *** The statuses of [handleNotification], step by step *)

Lemma handleNotification_unauthorized request env :
  auth_success (validateApiKey request env) = false ->
  exists msg, handleNotification request env = Resolve (errorResponse msg 401).
Proof.
  intros H. unfold handleNotification. rewrite H. eexists. reflexivity.
Qed.

Lemma handleNotification_invalid_json request env :
  auth_success (validateApiKey request env) = true ->
  json request = None ->
  handleNotification request env = Resolve (errorResponse "Invalid JSON body" 400).
Proof.
  intros Ha Hj. unfold handleNotification. rewrite Ha, Hj. reflexivity.
Qed.

Lemma handleNotification_missing_token request env body token :
  auth_success (validateApiKey request env) = true ->
  json request = Some body ->
  getProp body "turnstile_token" = inr token -> truthy token = false ->
  handleNotification request env
  = Resolve (errorResponse "Missing required field: turnstile_token" 400).
Proof.
  intros Ha Hj Hp Ht. unfold handleNotification. rewrite Ha, Hj, Hp.
  cbn [negb lift]. unfold mbind, Async_bind. cbn [bind]. rewrite Ht. reflexivity.
Qed.

Lemma handleNotification_missing_message request env body token message :
  auth_success (validateApiKey request env) = true ->
  json request = Some body ->
  getProp body "turnstile_token" = inr token -> truthy token = true ->
  getProp body "message" = inr message -> truthy message = false ->
  handleNotification request env
  = Resolve (errorResponse "Missing required field: message" 400).
Proof.
  intros Ha Hj Hp Ht Hm Hf. unfold handleNotification. rewrite Ha, Hj, Hp.
  cbn [negb lift]. unfold mbind, Async_bind. cbn [bind]. rewrite Ht, Hm.
  cbn [negb lift bind]. rewrite Hf. reflexivity.
Qed.

Lemma handleNotification_afterChecks request env fields :
  auth_success (validateApiKey request env) = true ->
  json request = Some (JObj fields) ->
  truthy (lookupField "turnstile_token" fields) = true ->
  truthy (lookupField "message" fields) = true ->
  handleNotification request env = afterChecks request env fields.
Proof.
  intros Ha Hj Ht Hm. unfold handleNotification, afterChecks. rewrite Ha, Hj.
  cbn [negb getProp lift]. unfold mbind, Async_bind. cbn [bind].
  rewrite Ht, Hm. cbn [negb]. reflexivity.
Qed.

(** The verifier and the sender catch what their calls throw: they
    always resolve. *)
Lemma verifyTurnstile_resolves token env remoteIp w :
  exists r, outcome w (verifyTurnstile token env remoteIp) = inr r.
Proof.
  unfold verifyTurnstile.
  destruct (negb (truthyStr (TURNSTILE_SECRET_KEY env))); [eexists; reflexivity|].
  destruct (negb (truthy token)); [eexists; reflexivity|].
  rewrite outcome_await_turnstile.
  destruct (turnstile_service w _) as [e|ok data]; [eexists; reflexivity|].
  destruct (negb (ts_success data)); eexists; reflexivity.
Qed.

Lemma execute_resolves action payload w :
  exists r, outcome w (execute action payload) = inr r.
Proof.
  unfold execute. destruct (negb (validate action)); [eexists; reflexivity|].
  rewrite outcome_await_telegram.
  destruct (telegram_service w _) as [e|ok d]; [eexists; reflexivity|].
  destruct (negb ok || negb (tg_ok d)); eexists; reflexivity.
Qed.

Lemma afterChecks_verification_failed request env fields w r :
  outcome w (verifyTurnstile (lookupField "turnstile_token" fields) env
               (orElse (headers_get (headers request) "CF-Connecting-IP") None)) = inr r ->
  Turnstile.success r = false ->
  exists msg, outcome w (afterChecks request env fields) = inr (errorResponse msg 403).
Proof.
  intros Hv Hs. unfold afterChecks. rewrite outcome_bind, Hv, Hs.
  eexists. reflexivity.
Qed.

Lemma afterChecks_unconfigured request env fields w r :
  outcome w (verifyTurnstile (lookupField "turnstile_token" fields) env
               (orElse (headers_get (headers request) "CF-Connecting-IP") None)) = inr r ->
  Turnstile.success r = true ->
  validate (new_TelegramAction (TELEGRAM_BOT_TOKEN env) (TELEGRAM_CHAT_ID env)) = false ->
  outcome w (afterChecks request env fields)
  = inr (errorResponse "Telegram action not properly configured" 500).
Proof.
  intros Hv Hs Hc. unfold afterChecks. rewrite outcome_bind, Hv, Hs. cbn [negb].
  rewrite Hc. reflexivity.
Qed.

Lemma afterChecks_sent request env fields w r res :
  outcome w (verifyTurnstile (lookupField "turnstile_token" fields) env
               (orElse (headers_get (headers request) "CF-Connecting-IP") None)) = inr r ->
  Turnstile.success r = true ->
  validate (new_TelegramAction (TELEGRAM_BOT_TOKEN env) (TELEGRAM_CHAT_ID env)) = true ->
  outcome w (execute (new_TelegramAction (TELEGRAM_BOT_TOKEN env) (TELEGRAM_CHAT_ID env))
               {| message := lookupField "message" fields;
                  subject := lookupField "subject" fields;
                  metadata := lookupField "metadata" fields |}) = inr res ->
  outcome w (afterChecks request env fields)
  = inr (if Telegram.success res
         then successResponse (result_message res) JUndefined
         else errorResponse (result_message res) 500).
Proof.
  intros Hv Hs Hc He. unfold afterChecks. rewrite outcome_bind, Hv, Hs. cbn [negb].
  rewrite Hc. cbn [negb]. rewrite outcome_bind, He.
  destruct (Telegram.success res); reflexivity.
Qed.

(** For a body other than [null], [handleNotification] returns a
    response, and its status is one of 200, 400, 401, 403, 500. *)
Lemma handleNotification_returns request env w :
  json request <> Some JNull -> json request <> Some JUndefined ->
  exists response,
    outcome w (handleNotification request env) = inr response /\
    In (status response) [200; 400; 401; 403; 500]%Z.
Proof.
  intros Hnull Hundef.
  destruct (auth_success (validateApiKey request env)) eqn:Ha.
  2:{ destruct (handleNotification_unauthorized _ _ Ha) as (msg & ->).
      eexists. split; [reflexivity|]. cbn. auto 10. }
  destruct (json request) as [body|] eqn:Hj.
  2:{ rewrite (handleNotification_invalid_json _ _ Ha Hj).
      eexists. split; [reflexivity|]. cbn. auto 10. }
  destruct (getProp_defined body "turnstile_token") as (token & Hp); [congruence..|].
  destruct (truthy token) eqn:Ht.
  2:{ rewrite (handleNotification_missing_token _ _ _ _ Ha Hj Hp Ht).
      eexists. split; [reflexivity|]. cbn. auto 10. }
  destruct (getProp_defined body "message") as (message & Hm); [congruence..|].
  destruct (truthy message) eqn:Hf.
  2:{ rewrite (handleNotification_missing_message _ _ _ _ _ Ha Hj Hp Ht Hm Hf).
      eexists. split; [reflexivity|]. cbn. auto 10. }
  destruct (truthy_getProp_object _ _ _ Hp Ht) as (fields & ->).
  cbn in Hp, Hm. injection Hp as <-. injection Hm as <-.
  rewrite (handleNotification_afterChecks _ _ fields Ha Hj Ht Hf).
  destruct (verifyTurnstile_resolves (lookupField "turnstile_token" fields) env
              (orElse (headers_get (headers request) "CF-Connecting-IP") None) w)
    as (r & Hv).
  destruct (Turnstile.success r) eqn:Hs.
  2:{ destruct (afterChecks_verification_failed request env fields w r Hv Hs) as (msg & ->).
      eexists. split; [reflexivity|]. cbn. auto 10. }
  destruct (validate (new_TelegramAction (TELEGRAM_BOT_TOKEN env) (TELEGRAM_CHAT_ID env)))
    eqn:Hc.
  2:{ rewrite (afterChecks_unconfigured request env fields w r Hv Hs Hc).
      eexists. split; [reflexivity|]. cbn. auto 10. }
  destruct (execute_resolves
              (new_TelegramAction (TELEGRAM_BOT_TOKEN env) (TELEGRAM_CHAT_ID env))
              {| message := lookupField "message" fields;
                 subject := lookupField "subject" fields;
                 metadata := lookupField "metadata" fields |} w) as (res & He).
  rewrite (afterChecks_sent request env fields w r res Hv Hs Hc He).
  eexists. split; [reflexivity|].
  destruct (Telegram.success res); cbn; auto 10.
Qed.

(** C2. The failing input: a [POST /notify] whose body is the JSON text
    [null], with no API key configured. The gate passes, the body is
    valid JSON, it has no [turnstile_token]; reading the field throws, so
    [handleNotification] rejects where a 400 is due, and the entry point
    answers 500. *)
Theorem handleNotification_null_body (now : string) (w : World) :
  auth_success (validateApiKey (notify [] (Some JNull)) bareEnv) = true /\
  json (notify [] (Some JNull)) = Some JNull /\
  handleNotification (notify [] (Some JNull)) bareEnv
  = Reject (ErrorObj "TypeError"
              "Cannot read properties of null (reading 'turnstile_token')") /\
  outcome w (fetch now (notify [] (Some JNull)) bareEnv)
  = inr (errorResponse "Internal server error" 500).
Proof. repeat split. Qed.

(** C1. The same input at the entry point: [handleRequest] throws, the
    catch-all answers with the 500 envelope as [errorResponse] builds it,
    and that response has none of the four CORS headers. *)
Theorem fetch_catch_all_lacks_cors (now : string) (w : World) :
  outcome w (handleRequest now (notify [] (Some JNull)) bareEnv)
  = inl (ErrorObj "TypeError"
           "Cannot read properties of null (reading 'turnstile_token')") /\
  outcome w (fetch now (notify [] (Some JNull)) bareEnv)
  = inr (errorResponse "Internal server error" 500) /\
  status (errorResponse "Internal server error" 500) = 500%Z /\
  lacksCors (errorResponse "Internal server error" 500).
Proof.
  split; [reflexivity|]. split; [reflexivity|]. split; [reflexivity|].
  apply errorResponse_lacksCors.
Qed.

(** Every response of the entry point that is not the catch-all's
    carries the four CORS headers. *)
Lemma fetch_hasCors now request env w response :
  outcome w (handleRequest now request env) = inr response ->
  outcome w (fetch now request env) = inr response /\
  hasCors (normalizeValue (getAllowedOrigin request env)) response.
Proof.
  intros H. split.
  - rewrite fetch_outcome, H. reflexivity.
  - apply (handleRequest_hasCors now request env w). exact H.
Qed.

(** [handleRequest] throws only when the allowed origin is no valid
    header value, or on the path of the failing input: a [POST] to a
    notify path that passed the gate with the body [null]. *)
Lemma handleRequest_throws now request env w e :
  outcome w (handleRequest now request env) = inl e ->
  validValue (getAllowedOrigin request env) = false \/
  (method request = "POST" /\
   (pathname request = "/notify" \/ pathname request = "/api/notify") /\
   auth_success (validateApiKey request env) = true /\
   (json request = Some JNull \/ json request = Some JUndefined)).
Proof.
  unfold handleRequest, tryHandleOptions, tryWithCors.
  destruct (validValue (getAllowedOrigin request env)); [|auto].
  destruct (String.eqb (method request) "OPTIONS"); [discriminate|].
  rewrite outcome_bind. intros H. right.
  destruct (String.eqb (pathname request) "/" || String.eqb (pathname request) "/health");
    [discriminate|].
  destruct (String.eqb (pathname request) "/notify"
            || String.eqb (pathname request) "/api/notify") eqn:Hpath; [|discriminate].
  destruct (String.eqb_spec (method request) "POST") as [Hpost|Hpost];
    cbn [negb] in H; [|discriminate].
  split; [exact Hpost|]. split.
  { apply orb_true_iff in Hpath. rewrite !String.eqb_eq in Hpath. exact Hpath. }
  destruct (auth_success (validateApiKey request env)) eqn:Ha.
  2:{ destruct (handleNotification_unauthorized _ _ Ha) as (msg & E).
      rewrite E in H. discriminate. }
  split; [reflexivity|].
  destruct (json request) as [[]|] eqn:Hj; auto;
    (destruct (handleNotification_returns request env w) as (r & E & _);
       [rewrite Hj; discriminate..|rewrite E in H; discriminate]).
Qed.

(** *** The router on sample requests *)

Example preflight_204 now w :
  exists response,
    outcome w (fetch now (plain "OPTIONS" "/anything") bareEnv) = inr response /\
    status response = 204%Z /\ body response = None /\ hasCors "*" response.
Proof.
  eexists. split; [reflexivity|]. split; [reflexivity|]. split; [reflexivity|].
  apply (handleOptions_hasCors (plain "OPTIONS" "/anything") bareEnv).
Qed.

Example unknown_path_404 now w :
  exists response,
    outcome w (fetch now (plain "GET" "/unknown") bareEnv) = inr response /\
    status response = 404%Z /\ hasCors "*" response.
Proof.
  eexists. split; [reflexivity|]. split; [reflexivity|].
  apply withCors_hasCors.
Qed.

Example wrong_method_405 now w :
  exists response,
    outcome w (fetch now (plain "GET" "/notify") bareEnv) = inr response /\
    status response = 405%Z /\ hasCors "*" response.
Proof.
  eexists. split; [reflexivity|]. split; [reflexivity|].
  apply withCors_hasCors.
Qed.

Example empty_body_400 now w :
  exists response,
    outcome w (fetch now (notify [] None) bareEnv) = inr response /\
    status response = 400%Z /\
    body response = stringify (JObj [("success", JBool false);
                                     ("message", JStr "Invalid JSON body");
                                     ("error", JStr "Invalid JSON body")]).
Proof. eexists. repeat split. Qed.

(** End to end: valid key, the verifier accepts, the sender succeeds. *)
Example end_to_end_200 now :
  exists response rq1 rq2,
    run acceptingWorld (fetch now (notify [("X-API-Key", "secret")] (Some goodBody)) fullEnv)
    = ([rq1; rq2], inr response) /\
    out_url rq1 = TURNSTILE_VERIFY_URL /\
    out_url rq2 = "https://api.telegram.org/bot123:abc/sendMessage" /\
    status response = 200%Z /\
    body response = stringify (JObj [("success", JBool true);
                                     ("message", JStr "Notification sent successfully")]).
Proof. eexists _, _, _. repeat split; vm_compute; reflexivity. Qed.

(** The verifier rejects: 403 with the description of the code, and no
    call to the messaging provider. *)
Example rejected_403 now :
  exists response rq1,
    run rejectingWorld (fetch now (notify [("X-API-Key", "secret")] (Some goodBody)) fullEnv)
    = ([rq1], inr response) /\
    out_url rq1 = TURNSTILE_VERIFY_URL /\
    status response = 403%Z /\
    body response
    = stringify (JObj [("success", JBool false);
                       ("message", JStr "The response parameter is invalid or has expired");
                       ("error", JStr "The response parameter is invalid or has expired")]).
Proof. eexists _, _. repeat split; vm_compute; reflexivity. Qed.

End Router.

(* ===================================================================== *)
(** * Further properties of the code *)
(* ===================================================================== *)

(* ===================================================================== *)
(** ** Escaping and formatting *)
(* ===================================================================== *)

Section Escaping.
Import JsString Js Http Telegram Samples.

Lemma replaceAll_append c rep a b :
  replaceAll c rep (a +:+ b) = replaceAll c rep a +:+ replaceAll c rep b.
Proof.
  induction a as [|d a IH]; [reflexivity|].
  rewrite append_cons. cbn [replaceAll]. rewrite IH, append_assoc. reflexivity.
Qed.

Lemma escapeHtml_append a b : escapeHtml (a +:+ b) = escapeHtml a +:+ escapeHtml b.
Proof. unfold escapeHtml. rewrite !replaceAll_append. reflexivity. Qed.

Lemma escapeHtml_char c : escapeHtml (String c "") = escapeChar c.
Proof.
  unfold escapeChar.
  destruct (Ascii.eqb_spec c "&") as [->|Hamp]; [reflexivity|].
  destruct (Ascii.eqb_spec c "<") as [->|Hlt]; [reflexivity|].
  destruct (Ascii.eqb_spec c ">") as [->|Hgt]; [reflexivity|].
  unfold escapeHtml. cbn [replaceAll].
  rewrite (proj2 (Ascii.eqb_neq "&" c)) by congruence.
  rewrite append_cons, append_nil_l. cbn [replaceAll].
  rewrite (proj2 (Ascii.eqb_neq "<" c)) by congruence.
  rewrite append_cons, append_nil_l. cbn [replaceAll].
  rewrite (proj2 (Ascii.eqb_neq ">" c)) by congruence.
  reflexivity.
Qed.

(** X1. The three successive replacements of [escapeHtml] amount to one
    pass that turns each ampersand, less-than and greater-than sign into
    its entity and leaves every other character alone: the ampersands of
    the entities written by the later replacements are not escaped
    again. *)
Theorem escapeHtml_one_pass (text : string) : escapeHtml text = escapeChars text.
Proof.
  induction text as [|c text IH]; [reflexivity|].
  change (String c text) with (String c "" +:+ text).
  rewrite escapeHtml_append, escapeHtml_char, IH. reflexivity.
Qed.

Lemma escapeHtml_chars text : escapeHtml text = escapeChars text.
Proof.
  induction text as [|c text IH]; [reflexivity|].
  change (String c text) with (String c "" +:+ text).
  rewrite escapeHtml_append, escapeHtml_char, IH. reflexivity.
Qed.

Lemma escapeChar_markupFree c : markupFree (escapeChar c) = true.
Proof.
  unfold escapeChar.
  destruct (Ascii.eqb_spec c "&") as [->|Hamp]; [reflexivity|].
  destruct (Ascii.eqb_spec c "<") as [->|Hlt]; [reflexivity|].
  destruct (Ascii.eqb_spec c ">") as [->|Hgt]; [reflexivity|].
  unfold markupFree. cbn [hasChar].
  rewrite (proj2 (Ascii.eqb_neq "<" c)), (proj2 (Ascii.eqb_neq ">" c)) by congruence.
  reflexivity.
Qed.

Lemma markupFree_append a b :
  markupFree (a +:+ b) = markupFree a && markupFree b.
Proof.
  unfold markupFree. rewrite !hasChar_append.
  destruct (hasChar "<" a), (hasChar ">" a), (hasChar "<" b), (hasChar ">" b); reflexivity.
Qed.

Lemma escapeHtml_markupFree text : markupFree (escapeHtml text) = true.
Proof.
  rewrite escapeHtml_chars. induction text as [|c text IH]; [reflexivity|].
  cbn [escapeChars]. rewrite markupFree_append, escapeChar_markupFree, IH. reflexivity.
Qed.

(** X2. Whatever the text, its escaped form holds no less-than and no
    greater-than sign. *)
Theorem escapeHtml_no_angle_bracket (text : string) :
  hasChar "<" (escapeHtml text) = false /\ hasChar ">" (escapeHtml text) = false.
Proof.
  pose proof (escapeHtml_markupFree text) as H. unfold markupFree in H.
  destruct (hasChar "<" (escapeHtml text)), (hasChar ">" (escapeHtml text));
    cbn in H; try discriminate; auto.
Qed.

Lemma escapeChar_cases c :
  (c = "&"%char /\ escapeChar c = "&amp;") \/
  (c = "<"%char /\ escapeChar c = "&lt;") \/
  (c = ">"%char /\ escapeChar c = "&gt;") \/
  (c <> "&"%char /\ escapeChar c = String c "").
Proof.
  unfold escapeChar.
  destruct (Ascii.eqb_spec c "&") as [->|Hamp]; [auto|].
  destruct (Ascii.eqb_spec c "<") as [->|Hlt]; [auto|].
  destruct (Ascii.eqb_spec c ">") as [->|Hgt]; [auto 6|].
  auto 6.
Qed.

Lemma escapeChars_injective a : forall b, escapeChars a = escapeChars b -> a = b.
Proof.
  induction a as [|c a IH]; intros [|d b] H.
  - reflexivity.
  - exfalso. cbn [escapeChars] in H.
    destruct (escapeChar_cases d) as [[_ E]|[[_ E]|[[_ E]|[_ E]]]];
      rewrite E in H; discriminate H.
  - exfalso. cbn [escapeChars] in H.
    destruct (escapeChar_cases c) as [[_ E]|[[_ E]|[[_ E]|[_ E]]]];
      rewrite E in H; discriminate H.
  - cbn [escapeChars] in H.
    destruct (escapeChar_cases c) as [[-> E]|[[-> E]|[[-> E]|[Hc E]]]];
    destruct (escapeChar_cases d) as [[-> F]|[[-> F]|[[-> F]|[Hd F]]]];
      rewrite ?E, ?F in H; rewrite ?append_cons, ?append_nil_l in H;
      try discriminate H;
      try (injection H as H; f_equal; apply IH; exact H);
      try (injection H as Hcd H; congruence).
    injection H as Hcd H. subst d. f_equal. apply IH. exact H.
Qed.

(** X3. Escaping loses nothing: two texts with the same escaped form are
    the same text. *)
Theorem escapeHtml_injective (a b : string) : escapeHtml a = escapeHtml b -> a = b.
Proof. rewrite !escapeHtml_chars. apply escapeChars_injective. Qed.

(** The theorem at a text and its escaped form. *)
Lemma escapeHtml_injective_witness : "a<b" = "a<b".
Proof. apply (escapeHtml_injective "a<b" "a<b"). reflexivity. Defined.

End Escaping.

Section Formatting.
Import JsString Js Http Telegram Samples.

Lemma valueText_markupFree v : markupFree (valueText v) = true.
Proof. destruct v; cbn [valueText]; try apply escapeHtml_markupFree; reflexivity. Qed.

Lemma metadataField_shape entry : Forall lineShape (metadataField entry).
Proof.
  unfold metadataField. destruct (nonEmpty (valueText (snd entry))); [|constructor].
  constructor; [|constructor].
  apply KeyValueLine; [apply escapeHtml_markupFree|apply valueText_markupFree].
Qed.

Lemma metadataFields_shape metadata : Forall lineShape (metadataFields metadata).
Proof.
  assert (H : forall es, Forall lineShape (flat_map metadataField es)).
  { induction es as [|e es IH]; [constructor|].
    cbn [flat_map]. apply Forall_app. split; [apply metadataField_shape|exact IH]. }
  destruct metadata; cbn [metadataFields]; try constructor; apply H.
Qed.

Lemma subjectFields_shape subject : Forall lineShape (subjectFields subject).
Proof.
  destruct subject; cbn [subjectFields]; try constructor.
  destruct (nonEmpty s && nonEmpty (trim s)); constructor; [|constructor].
  apply BoldLine, escapeHtml_markupFree.
Qed.

Lemma messageFields_shape message : Forall lineShape (messageFields message).
Proof.
  destruct message; cbn [messageFields]; try constructor.
  destruct (nonEmpty s && nonEmpty (trim s)); constructor; [|constructor].
  apply PlainLine, escapeHtml_markupFree.
Qed.

(** X4. Every fragment that [formatMessage] joins is text without angle
    brackets, bare or between the formatter's own bold tags, or a key
    between bold tags followed by such text: nothing of the subject, the
    message, the metadata keys or the metadata values reaches the channel
    as markup. *)
Theorem formatMessage_lines_markup_free (payload : ActionPayload) :
  Forall lineShape
    (subjectFields (subject payload) ++ messageFields (message payload)
     ++ metadataFields (metadata payload))%list.
Proof.
  rewrite !Forall_app. split; [apply subjectFields_shape|].
  split; [apply messageFields_shape|apply metadataFields_shape].
Qed.

Lemma subjectFields_nonempty subject : Forall (fun l => l <> "") (subjectFields subject).
Proof.
  destruct subject; cbn [subjectFields]; try constructor.
  destruct (nonEmpty s && nonEmpty (trim s)); constructor; [|constructor].
  rewrite !append_cons. discriminate.
Qed.

Lemma messageFields_nonempty message : Forall (fun l => l <> "") (messageFields message).
Proof.
  destruct message; cbn [messageFields]; try constructor.
  destruct (nonEmpty s) eqn:E1; [|constructor].
  destruct (nonEmpty (trim s)) eqn:E2; cbn [andb]; constructor; [|constructor].
  rewrite escapeHtml_empty_iff. apply nonEmpty_true. exact E2.
Qed.

Lemma metadataFields_nonempty metadata :
  Forall (fun l => l <> "") (metadataFields metadata).
Proof.
  assert (H : forall es, Forall (fun l => l <> "") (flat_map metadataField es)).
  { induction es as [|e es IH]; [constructor|].
    cbn [flat_map]. apply Forall_app. split; [|exact IH].
    unfold metadataField. destruct (nonEmpty (valueText (snd e))); constructor; [|constructor].
    rewrite !append_cons. discriminate. }
  destruct metadata; cbn [metadataFields]; try constructor; apply H.
Qed.

Lemma join_empty sep l : Forall (fun x => x <> "") l -> join sep l = "" -> l = [].
Proof.
  intros Hall H. destruct l as [|x [|y l]]; [reflexivity| |].
  - inversion Hall; subst. cbn in H. contradiction.
  - inversion Hall; subst. rewrite join_cons in H.
    exfalso. revert H. apply append_nonempty_l. assumption.
Qed.

(** X5. No fragment of [formatMessage] is empty, and the formatted text
    is empty exactly when there is no fragment at all: no subject line, no
    message line (the message is blank after trimming, or not a string),
    and no metadata line. *)
Theorem formatMessage_empty_iff (payload : ActionPayload) :
  Forall (fun l => l <> "")
    (subjectFields (subject payload) ++ messageFields (message payload)
     ++ metadataFields (metadata payload))%list /\
  (formatMessage payload = "" <->
   subjectFields (subject payload) = [] /\
   messageFields (message payload) = [] /\
   metadataFields (metadata payload) = []).
Proof.
  assert (Hall : Forall (fun l => l <> "")
            (subjectFields (subject payload) ++ messageFields (message payload)
             ++ metadataFields (metadata payload))%list).
  { rewrite !Forall_app. split; [apply subjectFields_nonempty|].
    split; [apply messageFields_nonempty|apply metadataFields_nonempty]. }
  split; [exact Hall|]. unfold formatMessage. split.
  - intros H. apply join_empty in H; [|exact Hall].
    apply app_eq_nil in H. destruct H as [H1 H2].
    apply app_eq_nil in H2. tauto.
  - intros (-> & -> & ->). reflexivity.
Qed.

(** A message of blanks passes the required-field test of the handler
    and leaves no line. *)
Lemma blank_message_no_line (s : string) :
  trim s = "" -> messageFields (JStr s) = [].
Proof.
  intros H. cbn [messageFields]. rewrite H. destruct (nonEmpty s); reflexivity.
Qed.

End Formatting.

(* ===================================================================== *)
(** ** The gate and the allowed origin *)
(* ===================================================================== *)

Section GateFurther.
Import JsString Js Http Auth Worker Samples.

(** X6. Against a key of a given length, every guess of that length
    costs the same number of loop turns, one per code unit, wherever the
    first mismatch stands and whether or not the guess is right. *)
Theorem secureCompare_same_turns (key guess guess' : string) :
  String.length guess = String.length key ->
  String.length guess' = String.length key ->
  snd (secureCompare_run guess key) = String.length key /\
  snd (secureCompare_run guess key) = snd (secureCompare_run guess' key).
Proof.
  intros H H'. rewrite !secureCompare_turns by assumption. split; congruence.
Qed.

(** The theorem at a guess wrong in its first code unit and one wrong in
    its last. *)
Lemma secureCompare_same_turns_witness :
  snd (secureCompare_run "Xecret" "secret") = String.length "secret" /\
  snd (secureCompare_run "Xecret" "secret") = snd (secureCompare_run "secreX" "secret").
Proof. apply (secureCompare_same_turns "secret" "Xecret" "secreX"); reflexivity. Defined.

(** X7. The gate lets a request through exactly when no key is
    configured (missing or empty) or the candidate extracted from the
    headers is the configured key, code unit for code unit. *)
Theorem validateApiKey_accepts_iff (request : Request) (env : Env) :
  auth_success (validateApiKey request env) = true <->
  truthyStr (API_KEY env) = false \/ candidateKey request = API_KEY env.
Proof.
  destruct (truthyStr (API_KEY env)) eqn:Hk.
  - destruct (API_KEY env) as [key|] eqn:Ek; [|discriminate].
    assert (Hne : key <> "") by (apply nonEmpty_true; exact Hk).
    rewrite (validateApiKey_success_iff request env key Ek Hne).
    split; [auto|]. intros [H|H]; [discriminate|exact H].
  - rewrite validateApiKey_unconfigured by exact Hk. cbn. split; auto.
Qed.

(** X8. A non-empty X-API-Key value decides alone: the request passes
    when it is the key and fails with the invalid-key error when it is
    not, whatever the Authorization header carries. *)
Theorem x_api_key_precedence (request : Request) (env : Env) (key v : string) :
  API_KEY env = Some key -> key <> "" ->
  headers_get (headers request) "X-API-Key" = Some v -> v <> "" ->
  validateApiKey request env
  = if String.eqb v key then authOk else authFailed "Invalid API key".
Proof.
  intros Hk Hne Hx Hv.
  apply validateApiKey_candidate; try assumption.
  apply candidateKey_primary; assumption.
Qed.

(** The theorem at a wrong X-API-Key sent along with the right bearer
    token: the request is refused. *)
Lemma x_api_key_precedence_witness :
  validateApiKey
    (notify [("X-API-Key", "guess"); ("Authorization", "Bearer secret")] None)
    (keyedEnv "secret")
  = authFailed "Invalid API key".
Proof.
  refine (x_api_key_precedence
            (notify [("X-API-Key", "guess"); ("Authorization", "Bearer secret")] None)
            (keyedEnv "secret") "secret" "guess" eq_refl _ _ _).
  - discriminate.
  - vm_compute. reflexivity.
  - discriminate.
Defined.

Lemma orDefault_nonempty o d : d <> "" -> orDefault o d <> "".
Proof.
  intros Hd. unfold orDefault. destruct o as [s|]; [|exact Hd].
  destruct (nonEmpty s) eqn:E; [|exact Hd]. apply nonEmpty_true. exact E.
Qed.

(** X9. The allowed origin is never empty, and it is "*" or an entry of
    the configured allow-list: an origin that is not listed is never
    echoed back. *)
Theorem getAllowedOrigin_star_or_listed (request : Request) (env : Env) :
  getAllowedOrigin request env <> "" /\
  (getAllowedOrigin request env = "*" \/
   In (getAllowedOrigin request env) (allowedOrigins env)).
Proof.
  unfold getAllowedOrigin.
  destruct (includes (allowedOrigins env) "*") eqn:Hstar.
  { split; [discriminate|left; reflexivity]. }
  destruct (includes (allowedOrigins env) (requestOrigin request)) eqn:Hreq.
  { split.
    - unfold requestOrigin. apply orDefault_nonempty. discriminate.
    - right. apply includes_In. exact Hreq. }
  split; [apply orDefault_nonempty; discriminate|].
  destruct (allowedOrigins env) as [|first rest]; [left; reflexivity|].
  cbn [head orDefault]. destruct (nonEmpty first); [|left; reflexivity].
  right. left. reflexivity.
Qed.

End GateFurther.

(* ===================================================================== *)
(** ** The pipeline and the router, run against a world *)
(* ===================================================================== *)

Section Pipeline.
Import JsString Js Http Effects Auth Turnstile Telegram ResponseUtil Worker Samples.

Lemma run_mbind_resolve {A B} (w : World) (a : A) (f : A -> Async B) :
  run w (Resolve a ≫= f) = run w (f a).
Proof. reflexivity. Qed.

Lemma run_await_turnstile {A} (w : World) rq (k : Reply TurnstileResponse -> Async A) :
  run w (AwaitTurnstile rq k)
  = (rq :: fst (run w (k (turnstile_service w rq))),
     snd (run w (k (turnstile_service w rq)))).
Proof. cbn [run]. destruct (run w _). reflexivity. Qed.

Lemma run_await_telegram {A} (w : World) rq (k : Reply TelegramResponse -> Async A) :
  run w (AwaitTelegram rq k)
  = (rq :: fst (run w (k (telegram_service w rq))),
     snd (run w (k (telegram_service w rq)))).
Proof. cbn [run]. destruct (run w _). reflexivity. Qed.

(** Every run of the rest of the pipeline is one of the listed ways. *)
Lemma afterChecks_run request env fields w :
  auth_success (validateApiKey request env) = true ->
  PipelineRun w request env (run w (afterChecks request env fields)).
Proof.
  intros Ha. unfold afterChecks, verifyTurnstile.
  destruct (truthyStr (TURNSTILE_SECRET_KEY env)); cbn [negb].
  2:{ rewrite run_mbind_resolve. cbn. apply RunNotVerifiable. exact Ha. }
  destruct (truthy (lookupField "turnstile_token" fields)); cbn [negb].
  2:{ rewrite run_mbind_resolve. cbn. apply RunNotVerifiable. exact Ha. }
  unfold mbind at 1, Async_bind at 1. cbn [bind].
  rewrite run_await_turnstile.
  match goal with |- context [turnstile_service w ?rq] => set (ts := rq) end.
  destruct (turnstile_service w ts) as [e|ok d] eqn:Ets.
  { cbn. apply RunNotVerified; [exact Ha|reflexivity|].
    intros ok d H. rewrite Ets in H. discriminate. }
  destruct (ts_success d) eqn:Hs; cbn [negb bind Turnstile.success].
  2:{ cbn. apply RunNotVerified; [exact Ha|reflexivity|].
      intros ok' d' H. rewrite Ets in H. injection H as _ <-. exact Hs. }
  destruct (validate (new_TelegramAction (TELEGRAM_BOT_TOKEN env) (TELEGRAM_CHAT_ID env)))
    eqn:Hv; cbn [negb].
  2:{ cbn. apply (RunNotConfigured _ _ _ ts ok d); auto. }
  unfold execute. rewrite Hv. cbn [negb].
  unfold mbind, Async_bind. cbn [bind]. rewrite run_await_telegram.
  match goal with |- context [telegram_service w ?rq] => set (tg := rq) end.
  destruct (telegram_service w tg) as [e|ok' d'] eqn:Etg.
  { cbn. apply (RunSendFailed _ _ _ ts tg ok d); auto.
    intros d' H. rewrite Etg in H. discriminate. }
  destruct ok'; cbn [negb orb].
  2:{ cbn. apply (RunSendFailed _ _ _ ts tg ok d); auto.
      intros d'' H. rewrite Etg in H. discriminate. }
  destruct (tg_ok d') eqn:Hok; cbn [negb].
  2:{ cbn. apply (RunSendFailed _ _ _ ts tg ok d); auto.
      intros d'' H. rewrite Etg in H. injection H as <-. exact Hok. }
  cbn. apply (RunSent _ _ _ ts tg ok d d'); auto.
Qed.

(** Every run of [handleNotification] is one of the listed ways. *)
Lemma handleNotification_run request env w :
  PipelineRun w request env (run w (handleNotification request env)).
Proof.
  destruct (auth_success (validateApiKey request env)) eqn:Ha.
  2:{ destruct (handleNotification_unauthorized _ _ Ha) as (msg & ->).
      apply RunUnauthorized. exact Ha. }
  destruct (json request) as [body|] eqn:Hj.
  2:{ rewrite (handleNotification_invalid_json _ _ Ha Hj). apply RunBadRequest. exact Ha. }
  destruct (getProp body "turnstile_token") as [e|token] eqn:Hp.
  { assert (Hnull : body = JNull \/ body = JUndefined)
      by (destruct body; try discriminate; auto).
    unfold handleNotification. rewrite Ha, Hj, Hp. cbn.
    apply RunThrown; [exact Ha|]. destruct Hnull as [->| ->]; auto. }
  destruct (truthy token) eqn:Ht.
  2:{ rewrite (handleNotification_missing_token _ _ _ _ Ha Hj Hp Ht).
      apply RunBadRequest. exact Ha. }
  destruct (truthy_getProp_object _ _ _ Hp Ht) as (fields & ->).
  cbn in Hp. injection Hp as <-.
  destruct (truthy (lookupField "message" fields)) eqn:Hf.
  2:{ rewrite (handleNotification_missing_message _ _ (JObj fields) _
                 (lookupField "message" fields) Ha Hj eq_refl Ht eq_refl Hf).
      apply RunBadRequest. exact Ha. }
  rewrite (handleNotification_afterChecks _ _ fields Ha Hj Ht Hf).
  apply afterChecks_run. exact Ha.
Qed.

Lemma run_catch {A} (w : World) (m : Async A) (h : JsThrown -> Async A) :
  run w (catch m h)
  = match run w m with
    | (cs, inl e) => ((cs ++ fst (run w (h e)))%list, snd (run w (h e)))
    | (cs, inr a) => (cs, inr a)
    end.
Proof.
  induction m as [a|e|rq k IH|rq k IH]; cbn [catch].
  - reflexivity.
  - cbn [run app]. destruct (run w (h e)). reflexivity.
  - rewrite !run_await_turnstile, IH.
    destruct (run w (k (turnstile_service w rq))) as [cs [e|a]]; reflexivity.
  - rewrite !run_await_telegram, IH.
    destruct (run w (k (telegram_service w rq))) as [cs [e|a]]; reflexivity.
Qed.

Lemma wrapRun_valid request env cs response :
  validValue (getAllowedOrigin request env) = true ->
  wrapRun request env (cs, inr response)
  = (cs, inr (withCors response (getAllowedOrigin request env))).
Proof. intros H. unfold wrapRun, tryWithCors. rewrite H. reflexivity. Qed.

Lemma wrapRun_invalid request env r :
  validValue (getAllowedOrigin request env) = false ->
  wrapRun request env r = (fst r, inr (errorResponse "Internal server error" 500)).
Proof.
  intros H. unfold wrapRun, tryWithCors. rewrite H. destruct r as [cs [e|a]]; reflexivity.
Qed.

Lemma fetch_preflight now request env w :
  method request = "OPTIONS" ->
  run w (fetch now request env)
  = ([], inr (if validValue (getAllowedOrigin request env)
              then handleOptions request env
              else errorResponse "Internal server error" 500)).
Proof.
  intros H. unfold fetch, handleRequest, tryHandleOptions. rewrite H.
  change (String.eqb "OPTIONS" "OPTIONS") with true. cbv iota.
  destruct (validValue (getAllowedOrigin request env)); reflexivity.
Qed.

(** A branch of the router that resolves without a call. *)
Lemma fetch_resolved now request env w (m : Async Response) response :
  handleRequest now request env
  = (m ≫= fun response => lift (tryWithCors response (getAllowedOrigin request env))) ->
  m = Resolve response ->
  run w (fetch now request env) = wrapRun request env ([], inr response).
Proof.
  intros E ->. unfold fetch. rewrite E. unfold mbind, Async_bind. cbn [bind].
  unfold wrapRun. destruct (tryWithCors response (getAllowedOrigin request env)); reflexivity.
Qed.

Lemma fetch_health now request env w :
  method request <> "OPTIONS" ->
  pathname request = "/" \/ pathname request = "/health" ->
  run w (fetch now request env) = wrapRun request env ([], inr (handleHealthCheck now env)).
Proof.
  intros Hm Hp. eapply fetch_resolved.
  - unfold handleRequest. rewrite (proj2 (String.eqb_neq _ _) Hm). reflexivity.
  - destruct Hp as [-> | ->]; reflexivity.
Qed.

Lemma fetch_not_found now request env w :
  method request <> "OPTIONS" ->
  pathname request <> "/" -> pathname request <> "/health" ->
  pathname request <> "/notify" -> pathname request <> "/api/notify" ->
  run w (fetch now request env)
  = wrapRun request env ([], inr (errorResponse "Not found" 404)).
Proof.
  intros Hm H1 H2 H3 H4. eapply fetch_resolved.
  - unfold handleRequest. rewrite (proj2 (String.eqb_neq _ _) Hm). reflexivity.
  - rewrite (proj2 (String.eqb_neq _ _) H1), (proj2 (String.eqb_neq _ _) H2).
    rewrite (proj2 (String.eqb_neq _ _) H3), (proj2 (String.eqb_neq _ _) H4).
    reflexivity.
Qed.

Lemma fetch_method_not_allowed now request env w :
  method request <> "OPTIONS" -> method request <> "POST" ->
  pathname request = "/notify" \/ pathname request = "/api/notify" ->
  run w (fetch now request env)
  = wrapRun request env ([], inr (errorResponse "Method not allowed. Use POST." 405)).
Proof.
  intros Hm Hpost Hp. eapply fetch_resolved.
  - unfold handleRequest. rewrite (proj2 (String.eqb_neq _ _) Hm). reflexivity.
  - rewrite (proj2 (String.eqb_neq _ _) Hpost).
    destruct Hp as [-> | ->]; reflexivity.
Qed.

Lemma fetch_notify now request env w :
  method request = "POST" ->
  pathname request = "/notify" \/ pathname request = "/api/notify" ->
  run w (fetch now request env)
  = wrapRun request env (run w (handleNotification request env)).
Proof.
  intros Hm Hp. unfold fetch, handleRequest. rewrite Hm.
  replace (String.eqb (pathname request) "/" || String.eqb (pathname request) "/health")
    with false by (destruct Hp as [-> | ->]; reflexivity).
  replace (String.eqb (pathname request) "/notify"
           || String.eqb (pathname request) "/api/notify")
    with true by (destruct Hp as [-> | ->]; reflexivity).
  change (String.eqb "POST" "OPTIONS") with false. cbv iota.
  change (negb (String.eqb "POST" "POST")) with false. cbv iota.
  rewrite run_catch, run_bind.
  destruct (run w (handleNotification request env)) as [cs [e|r]];
    cbn [wrapRun run fst snd]; rewrite ?app_nil_r; [reflexivity|].
  destruct (tryWithCors r (getAllowedOrigin request env));
    cbn [lift run fst snd]; rewrite ?app_nil_r; reflexivity.
Qed.

End Pipeline.

(* ===================================================================== *)
(** ** What the router guarantees *)
(* ===================================================================== *)

Section Routing.
Import JsString Js Http Effects Auth Turnstile Telegram ResponseUtil Worker Samples.

(** Lookups in a header map whose names are all known. *)
Ltac lookup_headers :=
  unfold headers_of, headers_append, headers_set, headers_get;
  cbn [res_headers fold_left fst snd];
  repeat split; simplify_map_eq; reflexivity.

(** X10. A request of method OPTIONS is answered before anything else
    is looked at, and without any outbound call, whatever the path, the
    body, the key and the world. When the allowed origin is a valid
    header value the answer is the 204 of [handleOptions]: no body, no
    content type, the four CORS headers. When it is not (an allow-list
    entry with a line feed inside, say), building the response throws and
    the answer is the catch-all's 500. *)
Theorem preflight_short_circuit (now : string) (request : Request) (env : Env) (w : World) :
  method request = "OPTIONS" ->
  (validValue (getAllowedOrigin request env) = true ->
   run w (fetch now request env) = ([], inr (handleOptions request env)) /\
   status (handleOptions request env) = 204%Z /\
   body (handleOptions request env) = None /\
   headers_get (res_headers (handleOptions request env)) "Content-Type" = None /\
   hasCors (normalizeValue (getAllowedOrigin request env)) (handleOptions request env)) /\
  (validValue (getAllowedOrigin request env) = false ->
   run w (fetch now request env)
   = ([], inr (errorResponse "Internal server error" 500))).
Proof.
  intros Hm. split; intros Hv.
  - split; [rewrite fetch_preflight, Hv by exact Hm; reflexivity|].
    split; [reflexivity|]. split; [reflexivity|].
    split; [|apply handleOptions_hasCors].
    unfold handleOptions. lookup_headers.
  - rewrite fetch_preflight, Hv by exact Hm. reflexivity.
Qed.

(** The theorem at a preflight for the notify path with a key
    configured and none sent, and at a preflight under an allow-list with
    a line feed in its first entry. *)
Lemma preflight_short_circuit_witness :
  (run rejectingWorld (fetch "t" (plain "OPTIONS" "/notify") (keyedEnv "secret"))
   = ([], inr (handleOptions (plain "OPTIONS" "/notify") (keyedEnv "secret"))) /\
   status (handleOptions (plain "OPTIONS" "/notify") (keyedEnv "secret")) = 204%Z /\
   body (handleOptions (plain "OPTIONS" "/notify") (keyedEnv "secret")) = None /\
   headers_get (res_headers (handleOptions (plain "OPTIONS" "/notify") (keyedEnv "secret")))
     "Content-Type" = None /\
   hasCors (normalizeValue (getAllowedOrigin (plain "OPTIONS" "/notify") (keyedEnv "secret")))
     (handleOptions (plain "OPTIONS" "/notify") (keyedEnv "secret"))) /\
  run rejectingWorld (fetch "t" (plain "OPTIONS" "/notify") brokenOriginsEnv)
  = ([], inr (errorResponse "Internal server error" 500)).
Proof.
  split.
  - apply (proj1 (preflight_short_circuit "t" (plain "OPTIONS" "/notify")
                    (keyedEnv "secret") rejectingWorld eq_refl)).
    reflexivity.
  - apply (proj2 (preflight_short_circuit "t" (plain "OPTIONS" "/notify")
                    brokenOriginsEnv rejectingWorld eq_refl)).
    reflexivity.
Defined.

(** X11. The health report shows which credentials are configured and
    nothing of their values: two environments that agree on whether the
    verification secret, the pair of messaging credentials and the API
    key are set get the same response, byte for byte. *)
Theorem health_reports_presence_only (now : string) (env env' : Env) :
  truthyStr (TURNSTILE_SECRET_KEY env) = truthyStr (TURNSTILE_SECRET_KEY env') ->
  truthyStr (TELEGRAM_BOT_TOKEN env) && truthyStr (TELEGRAM_CHAT_ID env)
  = truthyStr (TELEGRAM_BOT_TOKEN env') && truthyStr (TELEGRAM_CHAT_ID env') ->
  truthyStr (API_KEY env) = truthyStr (API_KEY env') ->
  handleHealthCheck now env = handleHealthCheck now env'.
Proof.
  intros H1 H2 H3. unfold handleHealthCheck. rewrite H1, H2, H3. reflexivity.
Qed.

(** The theorem at two environments with different secrets. *)
Lemma health_reports_presence_only_witness :
  handleHealthCheck "t" fullEnv
  = handleHealthCheck "t"
      {| TURNSTILE_SECRET_KEY := Some "another";
         TELEGRAM_BOT_TOKEN := Some "456:def";
         TELEGRAM_CHAT_ID := Some "42";
         API_KEY := Some "hunter2";
         ALLOWED_ORIGINS := Some "https://a.example" |}.
Proof. apply health_reports_presence_only; reflexivity. Defined.

Lemma withCors_status response origin :
  status (withCors response origin) = status response.
Proof. reflexivity. Qed.

Lemma withCors_body response origin : body (withCors response origin) = body response.
Proof. reflexivity. Qed.

(** X12. The paths / and /health answer with the health report to every
    method but OPTIONS (a POST or a DELETE as well as a GET), without
    asking for the API key and without any outbound call: 200, the
    report as body, the CORS headers. That is when the allowed origin is
    a valid header value; when it is not, attaching the CORS headers
    throws and the answer is the catch-all's 500. *)
Theorem health_any_method (now : string) (request : Request) (env : Env) (w : World) :
  method request <> "OPTIONS" ->
  pathname request = "/" \/ pathname request = "/health" ->
  (validValue (getAllowedOrigin request env) = true ->
   run w (fetch now request env)
   = ([], inr (withCors (handleHealthCheck now env) (getAllowedOrigin request env))) /\
   status (withCors (handleHealthCheck now env) (getAllowedOrigin request env)) = 200%Z /\
   body (withCors (handleHealthCheck now env) (getAllowedOrigin request env))
   = body (handleHealthCheck now env) /\
   hasCors (normalizeValue (getAllowedOrigin request env))
     (withCors (handleHealthCheck now env) (getAllowedOrigin request env))) /\
  (validValue (getAllowedOrigin request env) = false ->
   run w (fetch now request env)
   = ([], inr (errorResponse "Internal server error" 500))).
Proof.
  intros Hm Hp. split; intros Hv.
  - split; [rewrite fetch_health by assumption; apply wrapRun_valid; exact Hv|].
    split; [reflexivity|]. split; [reflexivity|]. apply withCors_hasCors.
  - rewrite fetch_health by assumption. apply wrapRun_invalid. exact Hv.
Qed.

(** The theorem at a DELETE of /health with a key configured and none
    sent, and at a GET of /health under the allow-list with a line
    feed. *)
Lemma health_any_method_witness :
  run rejectingWorld (fetch "t" (plain "DELETE" "/health") (keyedEnv "secret"))
  = ([], inr (withCors (handleHealthCheck "t" (keyedEnv "secret"))
                (getAllowedOrigin (plain "DELETE" "/health") (keyedEnv "secret")))) /\
  run rejectingWorld (fetch "t" (plain "GET" "/health") brokenOriginsEnv)
  = ([], inr (errorResponse "Internal server error" 500)).
Proof.
  split.
  - apply (proj1 (health_any_method "t" (plain "DELETE" "/health") (keyedEnv "secret")
                    rejectingWorld ltac:(discriminate) (or_intror eq_refl))).
    reflexivity.
  - apply (proj2 (health_any_method "t" (plain "GET" "/health") brokenOriginsEnv
                    rejectingWorld ltac:(discriminate) (or_intror eq_refl))).
    reflexivity.
Defined.

(** X13. Routing is by exact path, and the method is checked before the
    API key. With a valid allowed origin, any other path than the four
    gets the 404 envelope, and a notify path with a method other than
    POST gets the 405 envelope, both with the CORS headers, without a
    look at the key or the body and without any outbound call. With an
    allowed origin that is no valid header value, both get the
    catch-all's 500 instead. *)
Theorem route_rejections (now : string) (request : Request) (env : Env) (w : World) :
  method request <> "OPTIONS" ->
  (pathname request <> "/" -> pathname request <> "/health" ->
   pathname request <> "/notify" -> pathname request <> "/api/notify" ->
   run w (fetch now request env)
   = ([], inr (if validValue (getAllowedOrigin request env)
               then withCors (errorResponse "Not found" 404)
                      (getAllowedOrigin request env)
               else errorResponse "Internal server error" 500))) /\
  (pathname request = "/notify" \/ pathname request = "/api/notify" ->
   method request <> "POST" ->
   run w (fetch now request env)
   = ([], inr (if validValue (getAllowedOrigin request env)
               then withCors (errorResponse "Method not allowed. Use POST." 405)
                      (getAllowedOrigin request env)
               else errorResponse "Internal server error" 500))).
Proof.
  intros Hm. split.
  - intros. rewrite fetch_not_found by assumption.
    unfold wrapRun, tryWithCors.
    destruct (validValue (getAllowedOrigin request env)); reflexivity.
  - intros. rewrite fetch_method_not_allowed by assumption.
    unfold wrapRun, tryWithCors.
    destruct (validValue (getAllowedOrigin request env)); reflexivity.
Qed.

(** The theorem at a path with a trailing slash, and at a GET of the
    notify path without a key. *)
Lemma route_rejections_witness :
  run acceptingWorld (fetch "t" (plain "POST" "/notify/") fullEnv)
  = ([], inr (if validValue (getAllowedOrigin (plain "POST" "/notify/") fullEnv)
              then withCors (errorResponse "Not found" 404)
                     (getAllowedOrigin (plain "POST" "/notify/") fullEnv)
              else errorResponse "Internal server error" 500)) /\
  run acceptingWorld (fetch "t" (plain "GET" "/notify") fullEnv)
  = ([], inr (if validValue (getAllowedOrigin (plain "GET" "/notify") fullEnv)
              then withCors (errorResponse "Method not allowed. Use POST." 405)
                     (getAllowedOrigin (plain "GET" "/notify") fullEnv)
              else errorResponse "Internal server error" 500)).
Proof.
  split.
  - apply (proj1 (route_rejections "t" (plain "POST" "/notify/") fullEnv acceptingWorld
                    ltac:(discriminate))); discriminate.
  - apply (proj2 (route_rejections "t" (plain "GET" "/notify") fullEnv acceptingWorld
                    ltac:(discriminate))); [left; reflexivity|discriminate].
Defined.

End Routing.

(* ===================================================================== *)
(** ** What the pipeline guarantees *)
(* ===================================================================== *)

Section Guarantees.
Import JsString Js Http Effects Auth Turnstile Telegram ResponseUtil Worker Samples.

(** The five branches of the router. *)
Lemma fetch_run_cases now request env w :
  (method request = "OPTIONS" /\
   run w (fetch now request env)
   = ([], inr (if validValue (getAllowedOrigin request env)
               then handleOptions request env
               else errorResponse "Internal server error" 500))) \/
  (method request <> "OPTIONS" /\
   run w (fetch now request env)
   = wrapRun request env ([], inr (handleHealthCheck now env))) \/
  (method request <> "OPTIONS" /\
   run w (fetch now request env)
   = wrapRun request env ([], inr (errorResponse "Not found" 404))) \/
  (method request <> "OPTIONS" /\ method request <> "POST" /\
   run w (fetch now request env)
   = wrapRun request env ([], inr (errorResponse "Method not allowed. Use POST." 405))) \/
  (method request = "POST" /\
   (pathname request = "/notify" \/ pathname request = "/api/notify") /\
   run w (fetch now request env)
   = wrapRun request env (run w (handleNotification request env))).
Proof.
  destruct (String.eqb_spec (method request) "OPTIONS") as [Hm|Hm].
  { left. split; [exact Hm|]. apply fetch_preflight. exact Hm. }
  right.
  destruct (String.eqb_spec (pathname request) "/") as [H1|H1].
  { left. split; [exact Hm|]. apply fetch_health; auto. }
  destruct (String.eqb_spec (pathname request) "/health") as [H2|H2].
  { left. split; [exact Hm|]. apply fetch_health; auto. }
  right.
  assert (Hnotify : pathname request = "/notify" \/ pathname request = "/api/notify" ->
                    (method request <> "OPTIONS" /\ method request <> "POST" /\
                     run w (fetch now request env)
                     = wrapRun request env
                         ([], inr (errorResponse "Method not allowed. Use POST." 405))) \/
                    (method request = "POST" /\
                     (pathname request = "/notify" \/ pathname request = "/api/notify") /\
                     run w (fetch now request env)
                     = wrapRun request env (run w (handleNotification request env)))).
  { intros Hp. destruct (String.eqb_spec (method request) "POST") as [Hpost|Hpost].
    - right. split; [exact Hpost|]. split; [exact Hp|]. apply fetch_notify; assumption.
    - left. split; [exact Hm|]. split; [exact Hpost|].
      apply fetch_method_not_allowed; assumption. }
  destruct (String.eqb_spec (pathname request) "/notify") as [H3|H3]; [right; auto|].
  destruct (String.eqb_spec (pathname request) "/api/notify") as [H4|H4]; [right; auto|].
  left. split; [exact Hm|]. apply fetch_not_found; assumption.
Qed.

(** What the entry point makes of a response: the response with the
    CORS headers, or the catch-all's 500. *)
Lemma wrapRun_resolved request env cs response :
  wrapRun request env (cs, inr response)
  = (cs, inr (withCors response (getAllowedOrigin request env))) \/
  wrapRun request env (cs, inr response)
  = (cs, inr (errorResponse "Internal server error" 500)).
Proof.
  unfold wrapRun, tryWithCors.
  destruct (validValue (getAllowedOrigin request env)); auto.
Qed.

(** The gate's verdicts. *)
Lemma validateApiKey_verdicts request env :
  validateApiKey request env = authOk \/
  validateApiKey request env = authFailed missingKeyError \/
  validateApiKey request env = authFailed "Invalid API key".
Proof.
  unfold validateApiKey.
  destruct (negb (truthyStr (API_KEY env))); [auto|].
  destruct (negb (truthyStr (candidateKey request))); [auto|].
  destruct (negb (secureCompare _ _)); auto.
Qed.

(** X14. An unauthenticated notification is refused before its body is
    read and before any outbound call: for a POST to a notify path that
    the gate rejects, the gate's result carries an error, the missing-key
    or the invalid-key text, and the answer is the 401 envelope with
    that very text as message, with the CORS headers, whatever the body
    (a body that would make the handler throw included). That is when
    the allowed origin is a valid header value; when it is not, the
    answer is the catch-all's 500. *)
Theorem unauthorized_first (now : string) (request : Request) (env : Env) (w : World) :
  method request = "POST" ->
  pathname request = "/notify" \/ pathname request = "/api/notify" ->
  auth_success (validateApiKey request env) = false ->
  exists msg,
    auth_error (validateApiKey request env) = Some msg /\
    (msg = missingKeyError \/ msg = "Invalid API key") /\
    run w (fetch now request env)
    = ([], inr (if validValue (getAllowedOrigin request env)
                then withCors (errorResponse msg 401) (getAllowedOrigin request env)
                else errorResponse "Internal server error" 500)).
Proof.
  intros Hm Hp Ha.
  assert (Hrun : forall msg, validateApiKey request env = authFailed msg -> msg <> "" ->
            run w (fetch now request env)
            = ([], inr (if validValue (getAllowedOrigin request env)
                        then withCors (errorResponse msg 401) (getAllowedOrigin request env)
                        else errorResponse "Internal server error" 500))).
  { intros msg E Hne. rewrite fetch_notify by assumption.
    unfold handleNotification. rewrite E. cbn [negb auth_success authFailed auth_error].
    unfold orDefault. rewrite (proj2 (nonEmpty_true msg) Hne).
    unfold wrapRun, tryWithCors. cbn [run].
    destruct (validValue (getAllowedOrigin request env)); reflexivity. }
  destruct (validateApiKey_verdicts request env) as [E|[E|E]].
  - rewrite E in Ha. discriminate.
  - exists missingKeyError. split; [rewrite E; reflexivity|]. split; [auto|].
    apply Hrun; [exact E|discriminate].
  - exists "Invalid API key". split; [rewrite E; reflexivity|]. split; [auto|].
    apply Hrun; [exact E|discriminate].
Qed.

(** The theorem at a wrong key with the body [null]. *)
Lemma unauthorized_first_witness :
  exists msg,
    auth_error (validateApiKey (notify [("X-API-Key", "guess")] (Some JNull)) fullEnv)
    = Some msg /\
    (msg = missingKeyError \/ msg = "Invalid API key") /\
    run acceptingWorld
      (fetch "t" (notify [("X-API-Key", "guess")] (Some JNull)) fullEnv)
    = ([], inr (if validValue
                     (getAllowedOrigin (notify [("X-API-Key", "guess")] (Some JNull))
                        fullEnv)
                then withCors (errorResponse msg 401)
                       (getAllowedOrigin (notify [("X-API-Key", "guess")] (Some JNull))
                          fullEnv)
                else errorResponse "Internal server error" 500)).
Proof.
  apply (unauthorized_first "t" (notify [("X-API-Key", "guess")] (Some JNull)) fullEnv).
  - reflexivity.
  - left. reflexivity.
  - vm_compute. reflexivity.
Defined.

Lemma calls_wrapRun request env r : fst (wrapRun request env r) = fst r.
Proof.
  destruct r as [cs [e|a]]; [reflexivity|].
  destruct (wrapRun_resolved request env cs a) as [-> | ->]; reflexivity.
Qed.

(** X15. The send is gated by the verification, and nothing is retried:
    a request leads to no outbound call, or to one call to the
    verification endpoint, or to that call followed by one call to the
    messaging endpoint; the second call is made only for an authenticated
    POST to which the verification service answered success. *)
Theorem send_gated_by_verification
  (now : string) (request : Request) (env : Env) (w : World) :
  calls w (fetch now request env) = [] \/
  (exists ts,
     calls w (fetch now request env) = [ts] /\ out_url ts = TURNSTILE_VERIFY_URL) \/
  (exists ts tg ok d,
     calls w (fetch now request env) = [ts; tg] /\
     out_url ts = TURNSTILE_VERIFY_URL /\
     out_url tg
     = apiUrl (new_TelegramAction (TELEGRAM_BOT_TOKEN env) (TELEGRAM_CHAT_ID env))
       +:+ "/sendMessage" /\
     turnstile_service w ts = Replied ok d /\ ts_success d = true /\
     method request = "POST" /\
     auth_success (validateApiKey request env) = true).
Proof.
  unfold calls.
  destruct (fetch_run_cases now request env w)
    as [[_ E]|[[_ E]|[[_ E]|[(_ & _ & E)|(Hm & _ & E)]]]];
    rewrite E; rewrite ?calls_wrapRun; try (left; reflexivity).
  destruct (handleNotification_run request env w); cbn [fst];
    try (left; reflexivity);
    try (right; left; eexists; split; [reflexivity|assumption]).
  - right. right. exists ts, tg, ok, d. auto 10.
  - right. right. exists ts, tg, ok, d. auto 10.
Qed.

(** A 200 after the entry point's last step was a 200 before it. *)
Lemma wrapRun_ok request env cs res response :
  snd (wrapRun request env (cs, res)) = inr response ->
  status response = 200%Z ->
  exists r, res = inr r /\ status r = 200%Z /\ body response = body r.
Proof.
  destruct res as [e|r].
  - cbn [wrapRun snd]. intros [= <-] H. discriminate H.
  - destruct (wrapRun_resolved request env cs r) as [-> | ->]; cbn [snd];
      intros [= <-] H; [|discriminate H].
    exists r. auto.
Qed.

(** X16. A 200 on a notify path means delivery: the verification
    service answered success, the messaging provider answered with an
    HTTP success and [ok], in that order, and the body is the envelope
    "Notification sent successfully". *)
Theorem ok_implies_delivered
  (now : string) (request : Request) (env : Env) (w : World) (response : Response) :
  method request = "POST" ->
  pathname request = "/notify" \/ pathname request = "/api/notify" ->
  outcome w (fetch now request env) = inr response ->
  status response = 200%Z ->
  exists ts tg ok d d',
    calls w (fetch now request env) = [ts; tg] /\
    turnstile_service w ts = Replied ok d /\ ts_success d = true /\
    telegram_service w tg = Replied true d' /\ tg_ok d' = true /\
    body response = body (successResponse "Notification sent successfully" JUndefined).
Proof.
  intros Hm Hp Hout Hst. unfold outcome, calls in *.
  rewrite fetch_notify in * by assumption. rewrite calls_wrapRun.
  pose proof (handleNotification_run request env w) as HR.
  destruct (run w (handleNotification request env)) as [cs res].
  destruct (wrapRun_ok _ _ _ _ _ Hout Hst) as (r & -> & Hr & ->).
  cbn [fst].
  inversion HR; subst; rewrite ?errorResponse_status in Hr; try discriminate Hr.
  exists ts, tg, ok, d, d'. auto 10.
Qed.

(** The theorem at a good request in a world that accepts. *)
Lemma ok_implies_delivered_witness :
  exists ts tg ok d d',
    calls acceptingWorld
      (fetch "t" (notify [("X-API-Key", "secret")] (Some goodBody)) fullEnv) = [ts; tg] /\
    turnstile_service acceptingWorld ts = Replied ok d /\ ts_success d = true /\
    telegram_service acceptingWorld tg = Replied true d' /\ tg_ok d' = true /\
    body (withCors (successResponse "Notification sent successfully" JUndefined) "*")
    = body (successResponse "Notification sent successfully" JUndefined).
Proof.
  apply (ok_implies_delivered "t" (notify [("X-API-Key", "secret")] (Some goodBody))
           fullEnv acceptingWorld).
  - reflexivity.
  - left. reflexivity.
  - vm_compute. reflexivity.
  - reflexivity.
Defined.

(** The statuses after the entry point's last step. *)
Lemma wrapRun_status request env cs res :
  exists response,
    snd (wrapRun request env (cs, res)) = inr response /\
    (status response = 500%Z \/ exists r, res = inr r /\ status response = status r).
Proof.
  destruct res as [e|r].
  - eexists. split; [reflexivity|]. left. reflexivity.
  - destruct (wrapRun_resolved request env cs r) as [-> | ->]; cbn [snd];
      eexists; (split; [reflexivity|]); [right; exists r; auto|left; reflexivity].
Qed.

(** X17. The entry point always answers: for every request, environment
    and world it resolves to a response, never rejects, and the status is
    one of 200, 204, 400, 401, 403, 404, 405 and 500. *)
Theorem fetch_always_responds
  (now : string) (request : Request) (env : Env) (w : World) :
  exists response,
    outcome w (fetch now request env) = inr response /\
    In (status response) [200; 204; 400; 401; 403; 404; 405; 500]%Z.
Proof.
  unfold outcome.
  destruct (fetch_run_cases now request env w)
    as [[_ E]|[[_ E]|[[_ E]|[(_ & _ & E)|(_ & _ & E)]]]]; rewrite E.
  - cbn [snd]. destruct (validValue (getAllowedOrigin request env));
      eexists; (split; [reflexivity|]); cbn; auto 10.
  - destruct (wrapRun_status request env [] (inr (handleHealthCheck now env)))
      as (r & -> & [H|(r' & [= <-] & H)]); exists r; (split; [reflexivity|]);
      rewrite H; cbn; auto 10.
  - destruct (wrapRun_status request env [] (inr (errorResponse "Not found" 404)))
      as (r & -> & [H|(r' & [= <-] & H)]); exists r; (split; [reflexivity|]);
      rewrite H; cbn; auto 10.
  - destruct (wrapRun_status request env []
                (inr (errorResponse "Method not allowed. Use POST." 405)))
      as (r & -> & [H|(r' & [= <-] & H)]); exists r; (split; [reflexivity|]);
      rewrite H; cbn; auto 10.
  - pose proof (handleNotification_run request env w) as HR.
    destruct (run w (handleNotification request env)) as [cs res].
    destruct (wrapRun_status request env cs res) as (r & -> & [H|(r' & -> & H)]);
      exists r; (split; [reflexivity|]); rewrite H; [cbn; auto 10|].
    inversion HR; subst; cbn; auto 10.
Qed.

(** X18. [handleRequest] throws, and the catch-all of the entry point is
    reached, in two cases and in no other: when the allowed origin is no
    valid header value (a line feed, carriage return or NUL inside), for
    then the response cannot be built; and for a POST to a notify path
    that passed the gate with a body that parsed to [null]. *)
Theorem internal_error_iff (now : string) (request : Request) (env : Env) (w : World) :
  (exists e, outcome w (handleRequest now request env) = inl e) <->
  validValue (getAllowedOrigin request env) = false \/
  (method request = "POST" /\
   (pathname request = "/notify" \/ pathname request = "/api/notify") /\
   auth_success (validateApiKey request env) = true /\
   (json request = Some JNull \/ json request = Some JUndefined)).
Proof.
  split.
  - intros (e & H). apply (handleRequest_throws now request env w e H).
  - intros [Hv|(Hm & Hp & Ha & Hj)].
    + unfold handleRequest, tryHandleOptions, tryWithCors. rewrite Hv.
      destruct (String.eqb (method request) "OPTIONS"); [eexists; reflexivity|].
      rewrite outcome_bind. destruct (outcome w _); eexists; reflexivity.
    + unfold handleRequest. rewrite Hm.
      change (String.eqb "POST" "OPTIONS") with false. cbv iota.
      replace (String.eqb (pathname request) "/" || String.eqb (pathname request) "/health")
        with false by (destruct Hp as [-> | ->]; reflexivity).
      replace (String.eqb (pathname request) "/notify"
               || String.eqb (pathname request) "/api/notify")
        with true by (destruct Hp as [-> | ->]; reflexivity).
      change (negb (String.eqb "POST" "POST")) with false. cbv iota.
      rewrite outcome_bind. unfold handleNotification. rewrite Ha.
      destruct Hj as [-> | ->]; eexists; reflexivity.
Qed.

End Guarantees.

(* ===================================================================== *)
(** ** Responses *)
(* ===================================================================== *)

Section Responses.
Import JsString Js Http Effects Auth Turnstile Telegram ResponseUtil Worker Samples.

Lemma withCors_other_header response origin name :
  ~ In (lower name) (map lower corsHeaderNames) ->
  headers_get (res_headers (withCors response origin)) name
  = headers_get (res_headers response) name.
Proof.
  intros Hn. unfold withCors, headers_set, headers_get. cbn [res_headers].
  cbn [map corsHeaderNames In] in Hn.
  rewrite !lookup_insert_ne; [reflexivity|intros E; apply Hn; rewrite <- E; auto 10..].
Qed.

(** X19. [withCors] changes the four CORS headers and nothing else: the
    status, the body and every other header (names compared without
    regard to case) are those of the response it was given; and when it
    is applied twice the origin given last is the one that stays. *)
Theorem withCors_preserves (response : Response) (origin : string) :
  status (withCors response origin) = status response /\
  body (withCors response origin) = body response /\
  (forall name, ~ In (lower name) (map lower corsHeaderNames) ->
     headers_get (res_headers (withCors response origin)) name
     = headers_get (res_headers response) name) /\
  (forall origin', withCors (withCors response origin') origin = withCors response origin).
Proof.
  split; [reflexivity|]. split; [reflexivity|]. split.
  - intros name. apply withCors_other_header.
  - intros origin'. unfold withCors, headers_set. cbn [status body res_headers].
    f_equal. apply map_eq. intros i.
    rewrite !lookup_insert. repeat case_decide; congruence.
Qed.

(** A response is a JSON envelope: it has the JSON content type and a
    body. *)
Lemma jsonResponse_json fields st :
  headers_get (res_headers (jsonResponse (JObj fields) st [])) "Content-Type"
  = Some "application/json" /\
  exists text, body (jsonResponse (JObj fields) st []) = Some text.
Proof.
  split; [|eexists; reflexivity].
  unfold jsonResponse, headers_of, headers_set, headers_get.
  cbn [res_headers fold_left fst snd]. simplify_map_eq. reflexivity.
Qed.

Lemma withCors_json response origin :
  headers_get (res_headers response) "Content-Type" = Some "application/json" /\
  (exists text, body response = Some text) ->
  headers_get (res_headers (withCors response origin)) "Content-Type"
  = Some "application/json" /\
  exists text, body (withCors response origin) = Some text.
Proof.
  intros [Hc Hb]. split; [|exact Hb].
  rewrite withCors_other_header; [exact Hc|].
  cbn. intros [H|[H|[H|[H|[]]]]]; discriminate H.
Qed.

(** The entry point's last step keeps a JSON envelope a JSON envelope. *)
Lemma wrapRun_json request env cs res response :
  (forall r, res = inr r ->
     headers_get (res_headers r) "Content-Type" = Some "application/json" /\
     exists text, body r = Some text) ->
  snd (wrapRun request env (cs, res)) = inr response ->
  headers_get (res_headers response) "Content-Type" = Some "application/json" /\
  exists text, body response = Some text.
Proof.
  intros Hr. destruct res as [e|r].
  - cbn [wrapRun snd]. intros [= <-]. apply jsonResponse_json.
  - destruct (wrapRun_resolved request env cs r) as [-> | ->]; cbn [snd]; intros [= <-].
    + apply withCors_json, Hr. reflexivity.
    + apply jsonResponse_json.
Qed.

(** X20. Every answer but the preflight's is a JSON envelope: for a
    request of any method other than OPTIONS, whatever branch is taken
    (the catch-all included), the response has the content type
    application/json and a body. *)
Theorem responses_are_json
  (now : string) (request : Request) (env : Env) (w : World) (response : Response) :
  method request <> "OPTIONS" ->
  outcome w (fetch now request env) = inr response ->
  headers_get (res_headers response) "Content-Type" = Some "application/json" /\
  exists text, body response = Some text.
Proof.
  intros Hm Hout. unfold outcome in Hout.
  destruct (fetch_run_cases now request env w)
    as [[E _]|[[_ E]|[[_ E]|[(_ & _ & E)|(_ & _ & E)]]]];
    [contradiction|rewrite E in Hout..].
  - revert Hout. apply wrapRun_json. intros r [= <-]. apply jsonResponse_json.
  - revert Hout. apply wrapRun_json. intros r [= <-]. apply jsonResponse_json.
  - revert Hout. apply wrapRun_json. intros r [= <-]. apply jsonResponse_json.
  - pose proof (handleNotification_run request env w) as HR.
    destruct (run w (handleNotification request env)) as [cs res].
    revert Hout. apply wrapRun_json. intros r ->.
    inversion HR; subst; apply jsonResponse_json.
Qed.

(** The theorem at a GET of an unknown path. *)
Lemma responses_are_json_witness :
  headers_get
    (res_headers (withCors (errorResponse "Not found" 404) "*")) "Content-Type"
  = Some "application/json" /\
  exists text, body (withCors (errorResponse "Not found" 404) "*") = Some text.
Proof.
  apply (responses_are_json "t" (plain "GET" "/unknown") bareEnv acceptingWorld).
  - discriminate.
  - reflexivity.
Defined.

End Responses.

(* ===================================================================== *)
(** ** The two outbound calls *)
(* ===================================================================== *)

Section OutboundCalls.
Import JsString Js Http Effects Auth Turnstile Telegram ResponseUtil Worker Samples.

(** X21. The verifier always resolves. It reports success exactly when
    it made its call and the service replied with [success] true; the
    HTTP status of the reply is not looked at. When the service replied,
    the result carries that very reply as its details: with [success]
    true it is the record of [success] true, no error and the reply;
    with [success] false its error is the message of the reply's error
    codes. When the call threw, the result is the failure with the
    thrown message and no details. Every failure carries an error
    text. *)
Theorem verifyTurnstile_success_iff
  (token : JsValue) (env : Env) (remoteIp : option string) (w : World) :
  exists r,
    outcome w (verifyTurnstile token env remoteIp) = inr r /\
    (Turnstile.success r = true <->
     exists rq ok d,
       calls w (verifyTurnstile token env remoteIp) = [rq] /\
       turnstile_service w rq = Replied ok d /\ ts_success d = true) /\
    (forall rq ok d,
       calls w (verifyTurnstile token env remoteIp) = [rq] ->
       turnstile_service w rq = Replied ok d ->
       r = if ts_success d
           then {| Turnstile.success := true;
                   Turnstile.error := None;
                   Turnstile.details := Some d |}
           else {| Turnstile.success := false;
                   Turnstile.error := Some (getErrorMessage (ts_error_codes d));
                   Turnstile.details := Some d |}) /\
    (forall rq e,
       calls w (verifyTurnstile token env remoteIp) = [rq] ->
       turnstile_service w rq = Threw e ->
       r = {| Turnstile.success := false;
              Turnstile.error := Some (messageOr e "Failed to verify Turnstile token");
              Turnstile.details := None |}) /\
    (Turnstile.success r = false -> exists msg, Turnstile.error r = Some msg).
Proof.
  unfold outcome, calls, verifyTurnstile.
  destruct (truthyStr (TURNSTILE_SECRET_KEY env)); cbn [negb].
  2:{ eexists. split; [reflexivity|]. cbn.
      split; [|split; [|split]]; try discriminate; eauto.
      split; [discriminate|]. intros (rq & ok & d & H & _). discriminate H. }
  destruct (truthy token); cbn [negb].
  2:{ eexists. split; [reflexivity|]. cbn.
      split; [|split; [|split]]; try discriminate; eauto.
      split; [discriminate|]. intros (rq & ok & d & H & _). discriminate H. }
  rewrite run_await_turnstile.
  match goal with |- context [turnstile_service w ?rq] => set (ts := rq) end.
  destruct (turnstile_service w ts) as [e|ok d] eqn:Ets.
  { eexists. split; [reflexivity|]. cbn. split; [|split; [|split]]; eauto.
    - split; [discriminate|].
      intros (rq & ok & d & [= <-] & H & _). rewrite Ets in H. discriminate H.
    - intros rq ok d [= <-] H. rewrite Ets in H. discriminate H.
    - intros rq e' [= <-] H. rewrite Ets in H. injection H as <-. reflexivity. }
  destruct (ts_success d) eqn:Hs; cbn [negb].
  - eexists. split; [reflexivity|]. cbn. split; [|split; [|split]].
    + split; [|reflexivity]. intros _. exists ts, ok, d. auto.
    + intros rq ok' d' [= <-] H. rewrite Ets in H. injection H as _ <-.
      rewrite Hs. reflexivity.
    + intros rq e [= <-] H. rewrite Ets in H. discriminate H.
    + discriminate.
  - eexists. split; [reflexivity|]. cbn. split; [|split; [|split]]; eauto.
    + split; [discriminate|].
      intros (rq & ok' & d' & [= <-] & H & Hd). rewrite Ets in H.
      injection H as _ <-. congruence.
    + intros rq ok' d' [= <-] H. rewrite Ets in H. injection H as _ <-.
      rewrite Hs. reflexivity.
    + intros rq e [= <-] H. rewrite Ets in H. discriminate H.
Qed.

(** X22. The sender reports success exactly when it is configured (bot
    token and chat id both non-empty), made its call, and the provider
    replied with an HTTP success and [ok] true. Unconfigured, it makes no
    call. A success carries the message "Notification sent
    successfully". *)
Theorem execute_success_iff (action : TelegramAction) (payload : ActionPayload) (w : World) :
  exists r,
    outcome w (execute action payload) = inr r /\
    (Telegram.success r = true <->
     validate action = true /\
     exists rq d,
       calls w (execute action payload) = [rq] /\
       telegram_service w rq = Replied true d /\ tg_ok d = true) /\
    (validate action = false -> calls w (execute action payload) = []) /\
    (Telegram.success r = true -> result_message r = "Notification sent successfully").
Proof.
  unfold outcome, calls, execute.
  destruct (validate action); cbn [negb].
  2:{ eexists. split; [reflexivity|]. cbn. repeat split; try discriminate.
      intros [H _]. discriminate H. }
  rewrite run_await_telegram.
  match goal with |- context [telegram_service w ?rq] => set (tg := rq) end.
  destruct (telegram_service w tg) as [e|ok d] eqn:Etg.
  { eexists. split; [reflexivity|]. cbn. repeat split; try discriminate.
    intros (_ & rq & d & [= <-] & H & _). rewrite Etg in H. discriminate H. }
  destruct ok; cbn [negb orb].
  2:{ eexists. split; [reflexivity|]. cbn. repeat split; try discriminate.
      intros (_ & rq & d' & [= <-] & H & _). rewrite Etg in H. discriminate H. }
  destruct (tg_ok d) eqn:Hok.
  - eexists. split; [reflexivity|]. cbn. repeat split; try discriminate.
    exists tg, d. auto.
  - eexists. split; [reflexivity|]. cbn. repeat split; try discriminate.
    intros (_ & rq & d' & [= <-] & H & Hd). rewrite Etg in H.
    injection H as <-. congruence.
Qed.

End OutboundCalls.
